(** * agent-007: tool layer, provider adapters and the agent loop

    A shallow embedding of the Python sources

      - [ai_agent/tools/tools_base.py]  (tool registry, schema export,
        tool-call normalisation, tool execution),
      - [ai_agent/providers/providerfactory.py],
      - [core/providers/claude.py], [core/providers/gemini.py],
        [ai_agent/providers/openrouter.py]  (the [chat] adapters),
      - [core/agent/agent.py]  (the agent loop),

    followed by the properties established about them. *)

From Stdlib Require Import String Ascii List Bool ZArith Lia DecimalString.
Import ListNotations.
Local Open Scope string_scope.
Local Open Scope list_scope.
Set Warnings "-register-all".

(* ================================================================== *)
(** ** Python values, exceptions and dictionaries *)
(* ================================================================== *)

Module Py.

(** The exception classes the modelled code raises or catches.  All of
    them derive from [Exception], so a [try ... except Exception] catches
    every one of them.  [SdkError] stands for whatever a vendor SDK or a
    registered callable raises.  [exn_msg] is the text of the exception;
    for the ones the interpreter raises itself it is abbreviated (the
    interpreter also names the type of the offending object). *)
Inductive ExnKind : Type :=
| ValueError | KeyError | TypeError | AttributeError | IndexError | SdkError.

Record Exn : Type := mkExn { exn_kind : ExnKind; exn_msg : string }.

(** A computation either returns a value or raises. *)
Inductive Result (A : Type) : Type :=
| Ok (a : A)
| Raise (e : Exn).
Arguments Ok {A} a.
Arguments Raise {A} e.

Definition bind {A B : Type} (m : Result A) (k : A -> Result B) : Result B :=
  match m with
  | Ok a => k a
  | Raise e => Raise e
  end.

(** [try: m  except Exception as e: h e] *)
Definition try_except {A : Type} (m : Result A) (h : Exn -> Result A) : Result A :=
  match m with
  | Ok a => Ok a
  | Raise e => h e
  end.

(** Values.  A [float] is its IEEE-754 double bit pattern; a [dict] with
    string keys is an association list in insertion order (keys are kept
    distinct by [dict_set]); [PObj] is an object seen through its data
    attributes (SDK response objects). *)
Inductive PyVal : Type :=
| PNone
| PBool (b : bool)
| PInt (z : Z)
| PFloat (bits : Z)
| PStr (s : string)
| PList (l : list PyVal)
| PDict (d : list (string * PyVal))
| PObj (attrs : list (string * PyVal)).

Fixpoint assoc {V : Type} (k : string) (d : list (string * V)) : option V :=
  match d with
  | [] => None
  | (k', v) :: d' => if String.eqb k k' then Some v else assoc k d'
  end.

(** [d[k] = v]: an existing key keeps its position, a new key goes last. *)
Fixpoint dict_set {V : Type} (k : string) (v : V) (d : list (string * V))
  : list (string * V) :=
  match d with
  | [] => [(k, v)]
  | (k', v') :: d' =>
      if String.eqb k k' then (k, v) :: d' else (k', v') :: dict_set k v d'
  end.

Definition keys {V : Type} (d : list (string * V)) : list string := map fst d.
Definition values {V : Type} (d : list (string * V)) : list V := map snd d.

(** Truth value of an object ([not x], [x or y], [if x]). *)
Definition truthy (v : PyVal) : bool :=
  match v with
  | PNone => false
  | PBool b => b
  | PInt z => negb (Z.eqb z 0)
  | PFloat bits => negb (Z.eqb bits 0) && negb (Z.eqb bits (2 ^ 63))
  | PStr s => negb (String.eqb s EmptyString)
  | PList l => match l with [] => false | _ => true end
  | PDict d => match d with [] => false | _ => true end
  | PObj _ => true
  end.

(** [x or y] *)
Definition py_or (x y : PyVal) : PyVal := if truthy x then x else y.

(** [v == "s"] against a string literal. *)
Definition eq_str (v : PyVal) (s : string) : bool :=
  match v with
  | PStr t => String.eqb t s
  | _ => false
  end.

(** [v.get(k, default)]: only a dict has the method. *)
Definition get (v : PyVal) (k : string) (default : PyVal) : Result PyVal :=
  match v with
  | PDict d => Ok (match assoc k d with Some x => x | None => default end)
  | _ => Raise (mkExn AttributeError "object has no attribute 'get'")
  end.

(** [v[k]] with a string key. *)
Definition item (v : PyVal) (k : string) : Result PyVal :=
  match v with
  | PDict d =>
      match assoc k d with
      | Some x => Ok x
      | None => Raise (mkExn KeyError k)
      end
  | _ => Raise (mkExn TypeError "object is not subscriptable by a string key")
  end.

(** [v[0]] *)
Definition item0 (v : PyVal) : Result PyVal :=
  match v with
  | PList (x :: _) => Ok x
  | PList [] => Raise (mkExn IndexError "list index out of range")
  | PStr (String c _) => Ok (PStr (String c EmptyString))
  | PStr EmptyString => Raise (mkExn IndexError "string index out of range")
  | PDict _ => Raise (mkExn KeyError "0")
  | _ => Raise (mkExn TypeError "object is not subscriptable")
  end.

(** [v[-1]] on a list. *)
Definition last_item (l : list PyVal) : Result PyVal :=
  match rev l with
  | x :: _ => Ok x
  | [] => Raise (mkExn IndexError "list index out of range")
  end.

(** [v.name] for a data attribute. *)
Definition getattr (v : PyVal) (name : string) : Result PyVal :=
  match v with
  | PObj attrs =>
      match assoc name attrs with
      | Some x => Ok x
      | None => Raise (mkExn AttributeError name)
      end
  | _ => Raise (mkExn AttributeError name)
  end.

(** [hasattr(v, name)] *)
Definition hasattr (v : PyVal) (name : string) : bool :=
  match getattr v name with
  | Ok _ => true
  | Raise _ => false
  end.

(** [getattr(v, name, default)] *)
Definition getattr_default (v : PyVal) (name : string) (default : PyVal) : PyVal :=
  match getattr v name with
  | Ok x => x
  | Raise _ => default
  end.

Fixpoint chars (s : string) : list PyVal :=
  match s with
  | EmptyString => []
  | String c s' => PStr (String c EmptyString) :: chars s'
  end.

(** The items a [for x in v] loop visits. *)
Definition iter (v : PyVal) : Result (list PyVal) :=
  match v with
  | PList l => Ok l
  | PDict d => Ok (map PStr (keys d))
  | PStr s => Ok (chars s)
  | _ => Raise (mkExn TypeError "object is not iterable")
  end.

(** A generator function, run to exhaustion: the items it yielded, in
    order, and how it ended (its [return] value, which the interpreter
    carries in [StopIteration.value], or the exception it raised).  A
    [for] loop over the generator sees the yielded items only. *)
Record Generator (Y R : Type) : Type := mkGen {
  yielded : list Y;
  finished : Result R
}.
Arguments mkGen {Y R} yielded finished.
Arguments yielded {Y R} g.
Arguments finished {Y R} g.

(** What [for x in g: out.append(x)] leaves in [out], and whether the loop
    ended normally. *)
Definition for_loop {Y R : Type} (g : Generator Y R) : list Y * Result unit :=
  (yielded g,
   match finished g with
   | Ok _ => Ok tt
   | Raise e => Raise e
   end).

End Py.

Import Py.

Notation "x <- m ;; k" := (Py.bind m (fun x => k))
  (at level 61, m at next level, right associativity).

(* ================================================================== *)
(** ** [tools_base.py] *)
(* ================================================================== *)

Module ToolsBase.

(** What [inspect.signature] shows of a callable: per parameter its name,
    its annotation (only the five classes the code tests for are told
    apart) and whether it has a default. *)
Inductive Annotation : Type :=
| AnnInt | AnnFloat | AnnBool | AnnList | AnnDict | AnnOther.

Record SigParam : Type := mkParam {
  param_name : string;
  param_annotation : Annotation;
  param_has_default : bool
}.

(** A Python callable that [inspect.signature] accepts: [__name__],
    [__doc__], its signature, and what a keyword call of it does. *)
Record PyFunction : Type := mkFn {
  fn_name : string;
  fn_doc : option string;
  fn_parameters : list SigParam;
  fn_call : list (string * PyVal) -> Result PyVal
}.

(** A registered callable together with its [__tool_schema__] attribute. *)
Record Tool : Type := mkTool {
  tool_fn : PyFunction;
  tool_schema : PyVal
}.

(** [REGISTERED_TOOLS : Dict[str, Callable]] *)
Definition Registry : Type := list (string * Tool).

Definition ptype_of (a : Annotation) : string :=
  match a with
  | AnnInt => "integer"
  | AnnFloat => "number"
  | AnnBool => "boolean"
  | AnnList => "array"
  | AnnDict => "object"
  | AnnOther => "string"
  end.

(** One round of the loop over [sig.parameters.items()]. *)
Definition schema_step (acc : list (string * PyVal) * list PyVal) (p : SigParam)
  : list (string * PyVal) * list PyVal :=
  let '(properties, required) := acc in
  let name := param_name p in
  let properties' :=
    dict_set name
      (PDict [("type", PStr (ptype_of (param_annotation p)));
              ("description", PStr ("Parameter `" ++ name ++ "`"))])
      properties in
  let required' :=
    if param_has_default p then required else required ++ [PStr name] in
  (properties', required').

(** [fn.__doc__ or fn.__name__] *)
Definition doc_or_name (fn : PyFunction) : string :=
  match fn_doc fn with
  | Some d => if String.eqb d EmptyString then fn_name fn else d
  | None => fn_name fn
  end.

Definition build_tool_schema (fn : PyFunction) : PyVal :=
  let '(properties, required) :=
    fold_left schema_step (fn_parameters fn) ([], []) in
  PDict [("name", PStr (fn_name fn));
         ("description", PStr (doc_or_name fn));
         ("parameters",
          PDict [("type", PStr "object");
                 ("properties", PDict properties);
                 ("required", PList required)])].

(** The decorator [@tool]: stores the callable under its [__name__] and
    attaches the schema. *)
Definition tool (fn : PyFunction) (registry : Registry) : Registry :=
  dict_set (fn_name fn) (mkTool fn (build_tool_schema fn)) registry.

(** The registry after decorating [fns] in order, starting from the empty
    module-level dict. *)
Definition registered (fns : list PyFunction) : Registry :=
  fold_left (fun registry fn => tool fn registry) fns [].

(** A [for x in xs: out.append(f x)] loop whose body may raise. *)
Fixpoint collect {A B : Type} (f : A -> Result B) (xs : list A) : Result (list B) :=
  match xs with
  | [] => Ok []
  | x :: xs' =>
      y <- f x ;;
      ys <- collect f xs' ;;
      Ok (y :: ys)
  end.

Definition openai_entry (t : Tool) : Result PyVal :=
  Ok (PDict [("type", PStr "function"); ("function", tool_schema t)]).

Definition openai_tools_format (registry : Registry) : Result (list PyVal) :=
  collect openai_entry (values registry).

Definition anthropic_entry (t : Tool) : Result PyVal :=
  let schema := tool_schema t in
  n <- item schema "name" ;;
  d <- item schema "description" ;;
  p <- item schema "parameters" ;;
  Ok (PDict [("name", n); ("description", d); ("input_schema", p)]).

Definition anthropic_tools_format (registry : Registry) : Result (list PyVal) :=
  collect anthropic_entry (values registry).

Definition gemini_entry (t : Tool) : Result PyVal :=
  let schema := tool_schema t in
  n <- item schema "name" ;;
  d <- item schema "description" ;;
  p <- item schema "parameters" ;;
  Ok (PDict [("name", n); ("description", d); ("parameters", p)]).

Definition gemini_tools_format (registry : Registry) : Result (list PyVal) :=
  collect gemini_entry (values registry).

Definition groq_tools_format := openai_tools_format.
Definition openrouter_tools_format := openai_tools_format.

(** The unified record [{"tool_name": .., "arguments": .., "raw": ..}]. *)
Record NormalizedToolCall : Type := mkCall {
  tool_name : PyVal;
  arguments : PyVal;
  raw : PyVal
}.

Definition openai_call (tc : PyVal) : Result NormalizedToolCall :=
  f <- item tc "function" ;;
  n <- item f "name" ;;
  f' <- item tc "function" ;;
  a <- get f' "arguments" (PDict []) ;;
  Ok (mkCall n a tc).

(** One round of the Anthropic loop: [None] when the block is skipped. *)
Definition anthropic_call (block : PyVal) : Result (option NormalizedToolCall) :=
  ty <- get block "type" PNone ;;
  if eq_str ty "tool_use" then
    n <- item block "name" ;;
    a <- get block "input" (PDict []) ;;
    Ok (Some (mkCall n a block))
  else Ok None.

(** One round of the Gemini loop. *)
Definition gemini_call (p : PyVal) : Result (option NormalizedToolCall) :=
  if hasattr p "function_call" then
    fc <- getattr p "function_call" ;;
    n <- getattr fc "name" ;;
    fc' <- getattr p "function_call" ;;
    a <- getattr fc' "args" ;;
    Ok (Some (mkCall n a p))
  else Ok None.

Fixpoint somes {A : Type} (l : list (option A)) : list A :=
  match l with
  | [] => []
  | Some a :: l' => a :: somes l'
  | None :: l' => somes l'
  end.

Definition is_openai_compatible (provider : string) : bool :=
  String.eqb provider "openai" || String.eqb provider "groq"
  || String.eqb provider "openrouter".

(** [normalize_tool_calls(provider, raw)]; [raw] is [PNone] for [None]. *)
Definition normalize_tool_calls (provider : string) (raw : PyVal)
  : Result (list NormalizedToolCall) :=
  match raw with
  | PNone => Ok []
  | _ =>
      if is_openai_compatible provider then
        calls <- get raw "tool_calls" (PList []) ;;
        tcs <- iter calls ;;
        collect openai_call tcs
      else if String.eqb provider "anthropic" then
        msgs <- get raw "content" (PList []) ;;
        items <- iter msgs ;;
        found <- collect anthropic_call items ;;
        Ok (somes found)
      else if String.eqb provider "gemini" then
        cands <- getattr raw "candidates" ;;
        cand <- item0 cands ;;
        content <- getattr cand "content" ;;
        parts <- getattr content "parts" ;;
        ps <- iter parts ;;
        found <- collect gemini_call ps ;;
        Ok (somes found)
      else Ok []
  end.

(** [execute_tool(tool_name, arguments)] *)
Definition execute_tool (registry : Registry) (name : string)
    (args : list (string * PyVal)) : Result PyVal :=
  match assoc name registry with
  | None => Raise (mkExn ValueError ("Tool `" ++ name ++ "` not registered"))
  | Some t => fn_call (tool_fn t) args
  end.

(** [get_all_tool_schemas()] *)
Definition get_all_tool_schemas (registry : Registry) : list (string * PyVal) :=
  map (fun kv => (fst kv, tool_schema (snd kv))) registry.

End ToolsBase.

(* ================================================================== *)
(** ** Provider adapters and [providerfactory.py] *)
(* ================================================================== *)

Module Providers.

(** Stream chunk [{"delta", "tool_calls", "finish_reason", "raw"}]. *)
Record Chunk : Type := mkChunk {
  chunk_delta : PyVal;
  chunk_tool_calls : PyVal;
  chunk_finish_reason : PyVal;
  chunk_raw : PyVal
}.

(** Normalized response [{"content", "tool_calls", "finish_reason",
    "usage", "response_time", "raw"}]. *)
Record Response : Type := mkResponse {
  resp_content : PyVal;
  resp_tool_calls : PyVal;
  resp_finish_reason : PyVal;
  resp_usage : PyVal;
  resp_response_time : PyVal;
  resp_raw : PyVal
}.

(** Every [chat] method below has a [yield] in its body, so it is a
    generator function whatever [stream] is: its [return {...}] ends the
    generator with that value, and a bare [return] ends it with [None]. *)
Definition ChatGenerator : Type := Generator Chunk (option Response).

(** A stream handed out by a vendor SDK: the chunks it delivers and the
    exception, if any, that ends the iteration. *)
Record SdkStream : Type := mkStream {
  stream_items : list PyVal;
  stream_error : option Exn
}.

(** The body of [for chunk in stream_obj: yield normalise(chunk)]: the
    chunks yielded and the exception that left the loop, if one did. *)
Fixpoint yield_all (normalise : PyVal -> Result Chunk) (items : list PyVal)
    (at_end : option Exn) : list Chunk * option Exn :=
  match items with
  | [] => ([], at_end)
  | x :: xs =>
      match normalise x with
      | Ok c => let '(cs, e) := yield_all normalise xs at_end in (c :: cs, e)
      | Raise e => ([], Some e)
      end
  end.

(** The statements inside [try:] of the streaming branch. *)
Definition stream_phase (create : Result SdkStream)
    (normalise : PyVal -> Result Chunk) : list Chunk * option Exn :=
  match create with
  | Raise e => ([], Some e)
  | Ok s => yield_all normalise (stream_items s) (stream_error s)
  end.

(** [if stream: try: <stream phase>; return  except Exception: pass]
    followed by the non-streaming tail of the method. *)
Definition with_fallback (stream : bool) (create : Result SdkStream)
    (normalise : PyVal -> Result Chunk) (non_stream : Result Response)
  : ChatGenerator :=
  let tail := r <- non_stream ;; Ok (Some r) in
  if stream then
    match stream_phase create normalise with
    | (cs, None) => mkGen cs (Ok None)
    | (cs, Some _) => mkGen cs tail
    end
  else mkGen [] tail.

(** The adapter objects, by class and model. *)
Inductive Provider : Type :=
| OpenAIProvider (model : string)
| ClaudeProvider (model : string)
| GeminiProvider (model : string)
| OpenRouterProvider (model : string).

Section Adapters.

(** [str(x)] of the interpreter. *)
Variable py_str : PyVal -> string.

(** *** [ClaudeProvider] *)

Record AnthropicClient : Type := mkAnthropic {
  streaming_create : string -> list PyVal -> PyVal -> string -> Result SdkStream;
  messages_create : string -> list PyVal -> PyVal -> string -> Result PyVal
}.

Definition claude_chunk (chunk : PyVal) : Result Chunk :=
  Ok (mkChunk
        (py_or (getattr_default chunk "delta" PNone)
               (getattr_default chunk "text" PNone))
        (getattr_default chunk "tool_calls" PNone)
        (getattr_default chunk "finish_reason" PNone)
        chunk).

Definition claude_content (response : PyVal) : PyVal :=
  let c := getattr_default response "content" PNone in
  if truthy c then
    match (c0 <- item0 c ;; getattr c0 "text") with
    | Ok t => t
    | Raise _ => PStr (py_str c)
    end
  else PNone.

Definition claude_response (response elapsed : PyVal) : Response :=
  mkResponse (claude_content response)
             (getattr_default response "tool_calls" PNone)
             (getattr_default response "finish_reason" PNone)
             PNone
             elapsed
             response.

Definition ClaudeProvider_chat (client : AnthropicClient) (model : string)
    (messages : list PyVal) (tools : PyVal) (tool_choice : string)
    (stream : bool) (elapsed : PyVal) : ChatGenerator :=
  with_fallback stream
    (streaming_create client model messages tools tool_choice)
    claude_chunk
    (response <- messages_create client model messages tools tool_choice ;;
     Ok (claude_response response elapsed)).

(** *** [OpenRouterProvider] and [OpenAIProvider] *)

(** [client.chat.completions.create], by the value of its [stream]
    argument. *)
Record OpenAIClient : Type := mkOpenAI {
  completions_stream : string -> list PyVal -> PyVal -> string -> Result SdkStream;
  completions_create : string -> list PyVal -> PyVal -> string -> Result PyVal
}.

(** [getattr(choice, "delta", {}).get(key) if hasattr(choice, "delta") else None] *)
Definition delta_field (choice : PyVal) (key : string) : Result PyVal :=
  if hasattr choice "delta" then
    get (getattr_default choice "delta" (PDict [])) key PNone
  else Ok PNone.

Definition openai_chunk (chunk : PyVal) : Result Chunk :=
  choices <- getattr chunk "choices" ;;
  choice <- item0 choices ;;
  d <- delta_field choice "content" ;;
  tc <- delta_field choice "tool_calls" ;;
  Ok (mkChunk d tc (getattr_default choice "finish_reason" PNone) chunk).

Definition openrouter_response (response elapsed : PyVal) : Result Response :=
  choices <- getattr response "choices" ;;
  choice <- item0 choices ;;
  let msg := getattr_default choice "message" choice in
  Ok (mkResponse (getattr_default msg "content" PNone)
                 (getattr_default msg "tool_calls" PNone)
                 (getattr_default choice "finish_reason" PNone)
                 (getattr_default response "usage" PNone)
                 elapsed
                 response).

Definition OpenRouterProvider_chat (client : OpenAIClient) (model : string)
    (messages : list PyVal) (tools : PyVal) (tool_choice : string)
    (stream : bool) (elapsed : PyVal) : ChatGenerator :=
  with_fallback stream
    (completions_stream client model messages tools tool_choice)
    openai_chunk
    (response <- completions_create client model messages tools tool_choice ;;
     openrouter_response response elapsed).

Definition openai_usage (response : PyVal) : PyVal :=
  let usage := getattr_default response "usage" PNone in
  if truthy usage then
    PDict [("prompt_tokens", getattr_default usage "prompt_tokens" PNone);
           ("completion_tokens", getattr_default usage "completion_tokens" PNone);
           ("total_tokens", getattr_default usage "total_tokens" PNone)]
  else PNone.

Definition openai_response (response elapsed : PyVal) : Result Response :=
  choices <- getattr response "choices" ;;
  choice <- item0 choices ;;
  msg <- getattr choice "message" ;;
  Ok (mkResponse (getattr_default msg "content" PNone)
                 (getattr_default msg "tool_calls" PNone)
                 (getattr_default choice "finish_reason" PNone)
                 (openai_usage response)
                 elapsed
                 response).

(** No [try] here: a failure of the streaming request ends the generator
    with that exception. *)
Definition OpenAIProvider_chat (client : OpenAIClient) (model : string)
    (messages : list PyVal) (tools : PyVal) (tool_choice : string)
    (stream : bool) (elapsed : PyVal) : ChatGenerator :=
  if stream then
    match stream_phase (completions_stream client model messages tools tool_choice)
                       openai_chunk with
    | (cs, None) => mkGen cs (Ok None)
    | (cs, Some e) => mkGen cs (Raise e)
    end
  else
    mkGen []
      (response <- completions_create client model messages tools tool_choice ;;
       r <- openai_response response elapsed ;;
       Ok (Some r)).

(** *** [GeminiProvider] *)

Record GenAI : Type := mkGenAI {
  generate_stream : string -> PyVal -> Result SdkStream;
  generate : string -> PyVal -> Result PyVal
}.

(** The loop over [reversed(messages)], on the reversed list. *)
Fixpoint last_user_content (reversed : list PyVal) : Result PyVal :=
  match reversed with
  | [] => Ok PNone
  | m :: ms =>
      role <- get m "role" PNone ;;
      if eq_str role "user" then get m "content" PNone
      else last_user_content ms
  end.

Definition gemini_prompt (messages : list PyVal) : Result PyVal :=
  user_msg <- last_user_content (rev messages) ;;
  if truthy user_msg then Ok user_msg
  else
    match messages with
    | [] => Ok (PStr EmptyString)
    | _ => m <- last_item messages ;; item m "content"
    end.

Definition gemini_chunk (event : PyVal) : Result Chunk :=
  Ok (mkChunk
        (py_or (getattr_default event "text" PNone)
               (getattr_default event "delta" PNone))
        (getattr_default event "tool_calls" PNone)
        (getattr_default event "finish_reason" PNone)
        event).

Definition gemini_content (resp : PyVal) : PyVal :=
  if hasattr resp "text" then getattr_default resp "text" PNone
  else
    match (cands <- getattr resp "candidates" ;;
           cand <- item0 cands ;;
           getattr cand "output") with
    | Ok out => out
    | Raise _ => PStr (py_str resp)
    end.

Definition gemini_response (resp elapsed : PyVal) : Response :=
  mkResponse (gemini_content resp) PNone PNone PNone elapsed resp.

Definition GeminiProvider_chat (sdk : GenAI) (model : string)
    (messages : list PyVal) (tools : PyVal) (tool_choice : string)
    (stream : bool) (elapsed : PyVal) : ChatGenerator :=
  match gemini_prompt messages with
  | Raise e => mkGen [] (Raise e)
  | Ok prompt =>
      with_fallback stream
        (generate_stream sdk model prompt)
        gemini_chunk
        (resp <- generate sdk model prompt ;;
         Ok (gemini_response resp elapsed))
  end.

(** *** The method [chat] of an adapter object *)

(** The vendor SDKs of the process. *)
Record Sdk : Type := mkSdk {
  sdk_openai : OpenAIClient;
  sdk_anthropic : AnthropicClient;
  sdk_genai : GenAI;
  sdk_openrouter : OpenAIClient
}.

Definition Provider_chat (sdk : Sdk) (p : Provider)
    (messages : list PyVal) (tools : PyVal) (tool_choice : string)
    (stream : bool) (elapsed : PyVal) : ChatGenerator :=
  match p with
  | OpenAIProvider model =>
      OpenAIProvider_chat (sdk_openai sdk) model messages tools tool_choice
        stream elapsed
  | ClaudeProvider model =>
      ClaudeProvider_chat (sdk_anthropic sdk) model messages tools tool_choice
        stream elapsed
  | GeminiProvider model =>
      GeminiProvider_chat (sdk_genai sdk) model messages tools tool_choice
        stream elapsed
  | OpenRouterProvider model =>
      OpenRouterProvider_chat (sdk_openrouter sdk) model messages tools
        tool_choice stream elapsed
  end.

End Adapters.

(** *** [ProviderFactory] *)

(** [str.lower] on the letters A-Z.  A string is its UTF-8 bytes; outside
    ASCII, [str.lower] never yields one of the four names below (none has
    a [k], the only ASCII letter that is the lower case of a non-ASCII
    character), so the comparisons of [ProviderFactory] agree with the
    interpreter's. *)
Definition lower_char (c : ascii) : ascii :=
  let n := nat_of_ascii c in
  if Nat.leb 65 n && Nat.leb n 90 then ascii_of_nat (n + 32) else c.

Fixpoint lower (s : string) : string :=
  match s with
  | EmptyString => EmptyString
  | String c s' => String (lower_char c) (lower s')
  end.

Definition ProviderFactory (provider_name model : string) : Result Provider :=
  let p := lower provider_name in
  if String.eqb p "openai" then Ok (OpenAIProvider model)
  else if String.eqb p "claude" then Ok (ClaudeProvider model)
  else if String.eqb p "gemini" then Ok (GeminiProvider model)
  else if String.eqb p "openrouter" then Ok (OpenRouterProvider model)
  else Raise (mkExn ValueError ("Unknown provider: " ++ provider_name)).

End Providers.

(* ================================================================== *)
(** ** [agent.py] *)
(* ================================================================== *)

Module AgentCore.

Import Providers.

(** What a call [self.llm.chat(...)] evaluates to: a normalized response
    dict (an adapter written as a plain function, such as a test double)
    or a generator object (an adapter whose [chat] is a generator
    function). *)
Inductive ChatReturn : Type :=
| RDict (r : Response)
| RGenerator (g : ChatGenerator).

(** [normalized.get(key)]: a generator object has no [get]. *)
Definition response_get (normalized : ChatReturn) (field : Response -> PyVal)
  : Result PyVal :=
  match normalized with
  | RDict r => Ok (field r)
  | RGenerator _ =>
      Raise (mkExn AttributeError "'generator' object has no attribute 'get'")
  end.

Definition partial_answer_marker : string :=
  "Max tool-call iterations reached. Partial answer: ".

Definition default_prompt : string :=
  "You are a helpful assistant. Use tools when necessary.".

Definition default_max_iterations : Z := 5.

Definition message (role : string) (content : PyVal) : PyVal :=
  PDict [("role", PStr role); ("content", content)].

Definition tool_message (tc result : PyVal) : PyVal :=
  PDict [("role", PStr "tool");
         ("tool_call_id", getattr_default tc "id" PNone);
         ("content", result)].

Definition error_record (text : string) : PyVal :=
  PDict [("error", PStr text)].

Section Agent.

(** Library functions: [json.loads], [json.dumps], [str]. *)
Variable json_loads : string -> Result PyVal.
Variable json_dumps : PyVal -> string.
Variable py_str : PyVal -> string.

(** The two tools imported from the [ai_agent] package. *)
Variable query_database : PyVal -> Result PyVal.
Variable search_wikipedia : PyVal -> Result PyVal.

(** The adapter object held in [self.llm]: its state and its [chat]
    method, which reads [messages] and may update the adapter. *)
Variable LLM : Type.
Variable llm_chat :
  LLM -> list PyVal -> PyVal -> string -> bool -> Result ChatReturn * LLM.

(** [ProviderFactory]'s adapter object as an [LLM]. *)
Variable adapter : Provider -> LLM.

Record Agent : Type := mkAgent {
  llm : LLM;
  messages : list PyVal
}.

(** [self.messages.append(m)] *)
Definition append (self : Agent) (m : PyVal) : Agent :=
  mkAgent (llm self) (messages self ++ [m]).

(** [system_prompt or default_prompt] *)
Definition prompt_or_default (system_prompt : option string) : string :=
  match system_prompt with
  | Some p => if String.eqb p EmptyString then default_prompt else p
  | None => default_prompt
  end.

(** [Agent.__init__] *)
Definition init (system_prompt : option string) (provider model : string)
  : Result Agent :=
  p <- ProviderFactory provider model ;;
  Ok (append (mkAgent (adapter p) [])
             (message "system" (PStr (prompt_or_default system_prompt)))).

(** [json.loads(x)]: anything but text is a [TypeError]. *)
Definition loads (x : PyVal) : Result PyVal :=
  match x with
  | PStr s => json_loads s
  | _ => Raise (mkExn TypeError "the JSON object must be str, bytes or bytearray")
  end.

(** An object inside an f-string. *)
Definition format (v : PyVal) : string :=
  match v with
  | PStr s => s
  | _ => py_str v
  end.

(** The first [try] block of [execute_tool]. *)
Definition read_tool_call (tool_call : PyVal) : Result (PyVal * PyVal) :=
  f <- getattr tool_call "function" ;;
  fn <- getattr f "name" ;;
  f' <- getattr tool_call "function" ;;
  a <- getattr f' "arguments" ;;
  args <- loads a ;;
  Ok (fn, args).

(** The second [try] block. *)
Definition dispatch (fn args : PyVal) : Result PyVal :=
  if eq_str fn "query_database" then
    q <- get args "query" (PStr EmptyString) ;;
    query_database q
  else if eq_str fn "search_wikipedia" then
    q <- get args "query" (PStr EmptyString) ;;
    search_wikipedia q
  else Ok (PStr (json_dumps (error_record ("Unknown tool: " ++ format fn)))).

(** [Agent.execute_tool]: two [try] blocks in sequence, each with an
    [except Exception] that returns an error record as JSON text;
    [exn_msg e] is [str(e)]. *)
Definition execute_tool (tool_call : PyVal) : Result PyVal :=
  match read_tool_call tool_call with
  | Raise e =>
      Ok (PStr (json_dumps
                  (error_record ("Invalid tool call object: " ++ exn_msg e))))
  | Ok (fn, args) =>
      try_except (dispatch fn args)
        (fun e =>
           Ok (PStr (json_dumps
                       (error_record ("Tool execution failed: " ++ exn_msg e)))))
  end.

(** The inner loop [for tc in tool_calls]: the agent after the loop, and
    the exception that left it, if any. *)
Fixpoint run_tools (self : Agent) (tcs : list PyVal) : Agent * Result unit :=
  match tcs with
  | [] => (self, Ok tt)
  | tc :: tcs' =>
      match execute_tool tc with
      | Raise e => (self, Raise e)
      | Ok result => run_tools (append self (tool_message tc result)) tcs'
      end
  end.

(** What the statements after the [for] loop do. *)
Definition limit_reached (self : Agent) (last_response_content : PyVal)
  : Agent * Result PyVal :=
  let final_msg :=
    PStr (partial_answer_marker
          ++ format (py_or last_response_content (PStr EmptyString))) in
  (append self (message "assistant" final_msg), Ok final_msg).

(** [n] further rounds of [for _ in range(max_iterations)], then the
    statements after the loop.  [last_response_content] is only assigned
    on the path that returns, so it is still the empty string whenever a
    round starts. *)
Fixpoint rounds (n : nat) (self : Agent) (last_response_content : PyVal)
  : Agent * Result PyVal :=
  match n with
  | O => limit_reached self last_response_content
  | S n' =>
      let '(reply, llm') :=
        llm_chat (llm self) (messages self) PNone "auto" false in
      let self := mkAgent llm' (messages self) in
      match (normalized <- reply ;;
             content <- response_get normalized resp_content ;;
             tool_calls <- response_get normalized resp_tool_calls ;;
             finish_reason <- response_get normalized resp_finish_reason ;;
             Ok (content, tool_calls)) with
      | Raise e => (self, Raise e)
      | Ok (content, tool_calls) =>
          if negb (truthy tool_calls) then
            let answer := py_or content (PStr EmptyString) in
            (append self (message "assistant" answer), Ok answer)
          else
            match iter tool_calls with
            | Raise e => (self, Raise e)
            | Ok tcs =>
                match run_tools self tcs with
                | (self', Raise e) => (self', Raise e)
                | (self', Ok _) => rounds n' self' last_response_content
                end
            end
      end
  end.

(** What [process_query] hands back: the final content, or, in streaming
    mode, whatever the adapter's [chat] returned. *)
Inductive QueryReturn : Type :=
| Content (v : PyVal)
| Handle (gen : ChatReturn).

(** [Agent.process_query(user_input, max_iterations, stream)] *)
Definition process_query (self : Agent) (user_input : string)
    (max_iterations : Z) (stream : bool) : Agent * Result QueryReturn :=
  let self := append self (message "user" (PStr user_input)) in
  if stream then
    let '(gen, llm') := llm_chat (llm self) (messages self) PNone "auto" true in
    (mkAgent llm' (messages self), g <- gen ;; Ok (Handle g))
  else
    let '(self', out) := rounds (Z.to_nat max_iterations) self (PStr EmptyString) in
    (self', v <- out ;; Ok (Content v)).

(** [process_query(user_input)] with the defaults of the signature. *)
Definition process_query_default (self : Agent) (user_input : string)
  : Agent * Result QueryReturn :=
  process_query self user_input default_max_iterations false.

Definition get_conversation_history (self : Agent) : list PyVal :=
  messages self.

(** The agent after [k] rounds each of which got a response carrying at
    least one tool call (a non-empty list) and ran those calls; [None]
    when some round among the [k] was not of that kind. *)
Fixpoint tool_rounds (k : nat) (self : Agent) : option Agent :=
  match k with
  | O => Some self
  | S k' =>
      match llm_chat (llm self) (messages self) PNone "auto" false with
      | (Ok (RDict r), llm') =>
          match resp_tool_calls r with
          | PList (tc :: tcs) =>
              match run_tools (mkAgent llm' (messages self)) (tc :: tcs) with
              | (self', Ok _) => tool_rounds k' self'
              | (_, Raise _) => None
              end
          | _ => None
          end
      | _ => None
      end
  end.

End Agent.

Arguments mkAgent {LLM} llm messages.
Arguments llm {LLM} a.
Arguments messages {LLM} a.
Arguments append {LLM} self m.

(** [self.llm.chat] when [self.llm] is an adapter made by
    [ProviderFactory]: the call creates a generator object. *)
Definition factory_chat (py_str : PyVal -> string) (sdk : Sdk) (elapsed : PyVal)
    (p : Provider) (messages : list PyVal) (tools : PyVal)
    (tool_choice : string) (stream : bool) : Result ChatReturn * Provider :=
  (Ok (RGenerator (Provider_chat py_str sdk p messages tools tool_choice stream
                     elapsed)), p).

End AgentCore.

(* ================================================================== *)
(** ** Vocabulary of the statements *)
(* ================================================================== *)

Module Spec.

Import ToolsBase.

(** A [ToolDefinition] as data: name, description, parameter schema. *)
Record ToolDefinition : Type := mkDef {
  td_name : string;
  td_description : string;
  td_parameters : PyVal
}.

(** The dict [build_tool_schema] returns for a definition. *)
Definition schema_shape (td : ToolDefinition) : PyVal :=
  PDict [("name", PStr (td_name td));
         ("description", PStr (td_description td));
         ("parameters", td_parameters td)].

(** The three target shapes of a definition. *)
Definition openai_shape (td : ToolDefinition) : PyVal :=
  PDict [("type", PStr "function"); ("function", schema_shape td)].

Definition anthropic_shape (td : ToolDefinition) : PyVal :=
  PDict [("name", PStr (td_name td));
         ("description", PStr (td_description td));
         ("input_schema", td_parameters td)].

Definition gemini_shape (td : ToolDefinition) : PyVal :=
  PDict [("name", PStr (td_name td));
         ("description", PStr (td_description td));
         ("parameters", td_parameters td)].

(** Reading a definition back from a dict that stores the parameter
    schema under [pkey]. *)
Definition read_fields (pkey : string) (v : PyVal) : option ToolDefinition :=
  match v with
  | PDict d =>
      match assoc "name" d, assoc "description" d, assoc pkey d with
      | Some (PStr n), Some (PStr ds), Some p => Some (mkDef n ds p)
      | _, _, _ => None
      end
  | _ => None
  end.

Definition read_schema : PyVal -> option ToolDefinition := read_fields "parameters".
Definition read_anthropic : PyVal -> option ToolDefinition := read_fields "input_schema".
Definition read_gemini : PyVal -> option ToolDefinition := read_fields "parameters".

Definition read_openai (v : PyVal) : option ToolDefinition :=
  match v with
  | PDict d =>
      match assoc "function" d with
      | Some f => read_schema f
      | None => None
      end
  | _ => None
  end.

(** The tool names an exported list shows, read with [read]. *)
Definition exported_names (read : PyVal -> option ToolDefinition)
    (out : list PyVal) : list (option string) :=
  map (fun e => option_map td_name (read e)) out.

(** The definition registered for a tool: what its schema attribute holds. *)
Definition registered_definition (t : Tool) : option ToolDefinition :=
  read_schema (tool_schema t).

(** A tool-call entry of the OpenAI shape that the loop can read: a dict
    whose [function] is a dict with a [name]. *)
Definition has_function_name (tc : PyVal) : bool :=
  match tc with
  | PDict d =>
      match assoc "function" d with
      | Some (PDict f) =>
          match assoc "name" f with
          | Some _ => true
          | None => false
          end
      | _ => false
      end
  | _ => false
  end.

(** [tc["function"][k]], or [default] when it is not there. *)
Definition function_field (tc : PyVal) (k : string) (default : PyVal) : PyVal :=
  match tc with
  | PDict d =>
      match assoc "function" d with
      | Some (PDict f) =>
          match assoc k f with
          | Some v => v
          | None => default
          end
      | _ => default
      end
  | _ => default
  end.

(** The record that copies the entry's name and argument value as they are. *)
Definition verbatim_call (tc : PyVal) : NormalizedToolCall :=
  mkCall (function_field tc "name" PNone)
         (function_field tc "arguments" (PDict []))
         tc.

(** Whether a value is a mapping (what parsing a JSON object yields). *)
Definition is_mapping (v : PyVal) : bool :=
  match v with
  | PDict _ => true
  | _ => false
  end.

(** A message of the conversation: a dict with a role and a content. *)
Definition is_message (m : PyVal) : bool :=
  match m with
  | PDict d =>
      match assoc "role" d, assoc "content" d with
      | Some _, Some _ => true
      | _, _ => false
      end
  | _ => false
  end.

(** Upper case of a letter a-z. *)
Definition upper_char (c : ascii) : ascii :=
  let n := nat_of_ascii c in
  if Nat.leb 97 n && Nat.leb n 122 then ascii_of_nat (n - 32) else c.

(** [s] is [t] up to the case of its letters, character by character. *)
Fixpoint is_casing_of (s t : string) : bool :=
  match s, t with
  | EmptyString, EmptyString => true
  | String a s', String b t' =>
      (Ascii.eqb a b || Ascii.eqb a (upper_char b)) && is_casing_of s' t'
  | _, _ => false
  end.

(** The supported provider names with their adapter classes. *)
Definition supported : list (string * (string -> Providers.Provider)) :=
  [("openai", Providers.OpenAIProvider);
   ("claude", Providers.ClaudeProvider);
   ("gemini", Providers.GeminiProvider);
   ("openrouter", Providers.OpenRouterProvider)].

(** The adapter class a name selects when names are compared without
    regard to case. *)
Definition adapter_for (name : string) : option (string -> Providers.Provider) :=
  option_map snd (find (fun e => is_casing_of name (fst e)) supported).

(** [needle] occurs at the end of [text]. *)
Definition names_string (text needle : string) : Prop :=
  exists before, text = (before ++ needle)%string.

(** An entry of the registry stored under the name its schema carries. *)
Definition entry_ok (kv : string * Tool) : Prop :=
  exists td, tool_schema (snd kv) = schema_shape td /\ td_name td = fst kv.

End Spec.

(* ================================================================== *)
(** ** Test data: callables, payloads, SDK doubles and mocked adapters *)
(* ================================================================== *)

Module Samples.

Import ToolsBase Providers AgentCore.

(** Two callables: [add(a: int, b: int)] with a docstring and
    [greet(name, punctuation)] with a default for the second parameter
    and no docstring. *)
Definition sample_add : PyFunction :=
  mkFn "add" (Some "Add two integers.")
       [mkParam "a" AnnInt false; mkParam "b" AnnInt false]
       (fun kwargs =>
          match assoc "a" kwargs, assoc "b" kwargs with
          | Some (PInt a), Some (PInt b) => Ok (PInt (a + b))
          | _, _ => Raise (mkExn TypeError "add() got unexpected arguments")
          end).

Definition sample_greet : PyFunction :=
  mkFn "greet" None
       [mkParam "name" AnnOther false; mkParam "punctuation" AnnOther true]
       (fun _ => Ok (PStr "hello")).

(** Two tool calls of the OpenAI shape, the first with argument text that
    is not JSON, the second with the text of an empty JSON object. *)
Definition first_call : PyVal :=
  PDict [("id", PStr "call_1");
         ("function", PDict [("name", PStr "add"); ("arguments", PStr "{oops")])].

Definition second_call : PyVal :=
  PDict [("id", PStr "call_2");
         ("function", PDict [("name", PStr "now"); ("arguments", PStr "{}")])].

Definition two_calls_payload : PyVal :=
  PDict [("content", PNone); ("tool_calls", PList [first_call; second_call])].

(** Payloads without tool calls, as the vendors deliver them. *)
Definition openai_message_without_calls : PyVal :=
  PDict [("role", PStr "assistant"); ("content", PStr "hi"); ("tool_calls", PNone)].

Definition gemini_reply_without_candidates : PyVal :=
  PObj [("candidates", PList [])].

(** A conversation, and a Gemini SDK whose reply carries a function call. *)
Definition sample_messages : list PyVal :=
  [AgentCore.message "system" (PStr "You are a helpful assistant.");
   AgentCore.message "user" (PStr "What is 2+2?")].

Definition gemini_reply_with_call : PyVal :=
  PObj [("candidates",
         PList [PObj [("output", PStr "calling add");
                      ("content",
                       PObj [("parts",
                              PList [PObj [("function_call",
                                            PObj [("name", PStr "add");
                                                  ("args", PDict [("a", PInt 2);
                                                                  ("b", PInt 2)])])]])])]])].

Definition sample_genai : GenAI :=
  mkGenAI (fun _ _ => Raise (mkExn SdkError "streaming is not supported"))
          (fun _ _ => Ok gemini_reply_with_call).

(** A stand-in for [str]. *)
Definition show (v : PyVal) : string := "<object>".

(** An Anthropic client whose SDK has no streaming entry point, an
    OpenAI-compatible client that refuses streaming, and one whose chunks
    carry the delta as an SDK object (which has no [get] method). *)
Definition claude_reply : PyVal :=
  PObj [("content", PList [PObj [("type", PStr "text"); ("text", PStr "hello")]])].

Definition sample_anthropic : AnthropicClient :=
  mkAnthropic
    (fun _ _ _ _ => Raise (mkExn AttributeError "streaming"))
    (fun _ _ _ _ => Ok claude_reply).

Definition openrouter_reply : PyVal :=
  PObj [("choices",
         PList [PObj [("message", PObj [("content", PStr "hello");
                                        ("tool_calls", PNone)]);
                      ("finish_reason", PStr "stop")]])].

Definition openrouter_chunk : PyVal :=
  PObj [("choices", PList [PObj [("delta", PObj [("content", PStr "hel")])]])].

Definition sample_openrouter : OpenAIClient :=
  mkOpenAI
    (fun _ _ _ _ => Raise (mkExn SdkError "streaming is not supported"))
    (fun _ _ _ _ => Ok openrouter_reply).

Definition object_delta_openrouter : OpenAIClient :=
  mkOpenAI
    (fun _ _ _ _ => Ok (mkStream [openrouter_chunk] None))
    (fun _ _ _ _ => Ok openrouter_reply).

(** Stand-ins for [json.loads], [json.dumps] and the two tools. *)
Definition toy_loads (s : string) : Result PyVal :=
  if String.eqb s "{}" then Ok (PDict [])
  else Raise (mkExn ValueError "Expecting value").

Definition toy_dumps (v : PyVal) : string :=
  match v with
  | PDict [(k, PStr text)] => "{" ++ k ++ ": " ++ text ++ "}"
  | _ => "null"
  end.

Definition toy_tool (query : PyVal) : Result PyVal := Ok (PStr "no rows").

(** Mocked adapters: plain functions that count their calls.  The first
    always answers 4 without tool calls, the second always asks for the
    tool [add], the third asks once and then answers 5. *)
Definition answer_4 : Response :=
  mkResponse (PStr "4") (PList []) (PStr "stop") PNone (PFloat 0) PNone.

Definition add_call : PyVal :=
  PObj [("id", PStr "call_1");
        ("function", PObj [("name", PStr "add"); ("arguments", PStr "{}")])].

Definition asks_for_add : Response :=
  mkResponse PNone (PList [add_call]) (PStr "tool_calls") PNone (PFloat 0) PNone.

Definition mock_chat (r : Response) (calls : nat) (messages : list PyVal)
    (tools : PyVal) (tool_choice : string) (stream : bool)
  : Result ChatReturn * nat :=
  (Ok (RDict r), S calls).

Definition add_then_answer (calls : nat) (messages : list PyVal)
    (tools : PyVal) (tool_choice : string) (stream : bool)
  : Result ChatReturn * nat :=
  match calls with
  | O => (Ok (RDict asks_for_add), S calls)
  | _ => (Ok (RDict (mkResponse (PStr "5") PNone (PStr "stop") PNone (PFloat 0) PNone)),
          S calls)
  end.

Definition fresh_agent : Agent nat :=
  mkAgent 0 [message "system" (PStr "You are a helpful assistant.")].

(** What the stand-in [json.dumps] makes of the record for [add]. *)
Definition unknown_tool_text : PyVal := PStr "{error: Unknown tool: add}".

End Samples.

(* ================================================================== *)
(** ** [tools.py]: the tool catalog and its search and format helpers *)
(* ================================================================== *)

Module Tools.

Import ToolsBase.

(** What the file system shows for a path: nothing, something that
    exists but cannot be opened and read as UTF-8 text (a directory, a
    binary file), or a text file by its lines as [readlines] returns
    them. *)
Inductive FsEntry : Type :=
| Missing
| Unreadable (e : Exn)
| File (lines : list string).

(** [query in line] *)
Fixpoint contains (query line : string) : bool :=
  String.prefix query line
  || match line with
     | EmptyString => false
     | String _ rest => contains query rest
     end.

(** An integer inside an f-string. *)
Definition decimal (n : nat) : string := NilEmpty.string_of_uint (Nat.to_uint n).

Section Helpers.

(** The file system, [glob.glob(pattern, recursive=True)], [str.strip],
    and a shell command run on an input text, by its standard output. *)
Variable fs : string -> FsEntry.
Variable glob : string -> list string.
Variable strip : string -> string.
Variable run_shell : string -> string -> string.

(** The loop over [enumerate(f.readlines(), start=i)]. *)
Fixpoint scan_lines (query : string) (i : nat) (lines : list string) : list string :=
  match lines with
  | [] => []
  | line :: rest =>
      if contains query line
      then (decimal i ++ ": " ++ strip line)%string :: scan_lines query (S i) rest
      else scan_lines query (S i) rest
  end.

Definition search_in_file (path query : string) : Result (list string) :=
  match fs path with
  | Missing => Ok []
  | Unreadable e => Raise e
  | File lines => Ok (scan_lines query 1 lines)
  end.

(** The loop of [search_in_project] over the files still to visit. *)
Fixpoint search_files (query : string) (files : list string)
    (results : list (string * list string)) : Result (list (string * list string)) :=
  match files with
  | [] => Ok results
  | file :: rest =>
      matches <- search_in_file file query ;;
      search_files query rest
        (match matches with
         | [] => results
         | _ => dict_set file matches results
         end)
  end.

Definition search_in_project (query pattern : string)
  : Result (list (string * list string)) :=
  search_files query (glob pattern) [].

Definition format_code (language code : string) : string :=
  if String.eqb (Providers.lower language) "python" then
    run_shell "black -q -" code
  else if existsb (String.eqb (Providers.lower language))
                  ["javascript"; "typescript"; "js"; "ts"] then
    run_shell "npx prettier --stdin-filepath temp.js" code
  else code.

End Helpers.

(** The decorated functions of [tools.py], in the order of the file, by
    name, docstring and signature.  Every annotation is [str] or
    [Dict[str, Any]], neither of which is one of the five classes
    [build_tool_schema] tests for.  What a call does is input and output;
    [io] gives it by name. *)
Definition text (name : string) : SigParam := mkParam name AnnOther false.
Definition text_with_default (name : string) : SigParam := mkParam name AnnOther true.

Definition catalog (io : string -> list (string * PyVal) -> Result PyVal)
  : list PyFunction :=
  let fn name doc params := mkFn name (Some doc) params (io name) in
  [fn "read_file" "Read a file and return its contents." [text "path"];
   fn "write_file" "Write content to a file (overwrites)."
      [text "path"; text "content"];
   fn "append_file" "Append content to a file." [text "path"; text "content"];
   fn "list_files" "List files using a glob pattern." [text_with_default "pattern"];
   fn "make_dir" "Create a directory." [text "path"];
   fn "delete_file" "Delete a file if exists." [text "path"];
   fn "run_bash" "Run a bash command." [text "cmd"];
   fn "run_python" "Execute Python code in a sandbox subprocess." [text "code"];
   fn "run_node" "Execute JavaScript (Node) code." [text "code"];
   fn "install_python_package" "Install a Python package using pip."
      [text "package"];
   fn "install_npm_package" "Install an NPM package." [text "package"];
   fn "git_clone" "Clone a Git repository."
      [text "repo_url"; text_with_default "destination"];
   fn "git_status" "Git status." [];
   fn "git_pull" "Git pull." [];
   fn "git_push" "Git commit + push." [text "msg"];
   fn "git_commit" "Git commit only." [text "msg"];
   fn "http_get" "HTTP GET request." [text "url"];
   fn "http_post" "HTTP POST with JSON body." [text "url"; text "data"];
   fn "search_in_file" "Search for a query in a single file."
      [text "path"; text "query"];
   fn "search_in_project" "Search across project files."
      [text "query"; text_with_default "pattern"];
   fn "run_tests_py" "Run Python tests (pytest)." [];
   fn "run_tests_js" "Run JS tests (npm test)." [];
   fn "format_code" "Format code using tools like black, prettier, etc."
      [text "language"; text "code"];
   fn "generate_uuid" "Generate a UUID." []].

End Tools.

(* ================================================================== *)
(** ** Vocabulary of the further properties *)
(* ================================================================== *)

Module Props.

Import ToolsBase Providers AgentCore.

(** The callable decorated last under a name. *)
Definition latest (name : string) (fns : list PyFunction) : option PyFunction :=
  find (fun fn => String.eqb name (fn_name fn)) (rev fns).

(** The schema of one parameter, and of a whole signature. *)
Definition property_entry (p : SigParam) : string * PyVal :=
  (param_name p,
   PDict [("type", PStr (ptype_of (param_annotation p)));
          ("description", PStr ("Parameter `" ++ param_name p ++ "`"))]).

Definition required_names (params : list SigParam) : list PyVal :=
  map (fun p => PStr (param_name p))
      (filter (fun p => negb (param_has_default p)) params).

Definition parameters_schema (params : list SigParam) : PyVal :=
  PDict [("type", PStr "object");
         ("properties", PDict (map property_entry params));
         ("required", PList (required_names params))].

(** Anthropic content blocks: which are tool uses, which the loop can
    read (a dict that, if a tool use, has a name), and the record of one. *)
Definition is_tool_use (block : PyVal) : bool :=
  match block with
  | PDict d =>
      match assoc "type" d with
      | Some t => eq_str t "tool_use"
      | None => false
      end
  | _ => false
  end.

Definition readable_block (block : PyVal) : bool :=
  match block with
  | PDict d =>
      if is_tool_use block
      then match assoc "name" d with Some _ => true | None => false end
      else true
  | _ => false
  end.

Definition tool_use_record (block : PyVal) : NormalizedToolCall :=
  match block with
  | PDict d =>
      mkCall (match assoc "name" d with Some n => n | None => PNone end)
             (match assoc "input" d with Some i => i | None => PDict [] end)
             block
  | _ => mkCall PNone (PDict []) block
  end.

(** Gemini parts: which carry a function call, which the loop can read,
    and the record of one. *)
Definition has_function_call (part : PyVal) : bool := hasattr part "function_call".

Definition readable_part (part : PyVal) : bool :=
  if hasattr part "function_call" then
    let fc := getattr_default part "function_call" PNone in
    hasattr fc "name" && hasattr fc "args"
  else true.

Definition function_call_record (part : PyVal) : NormalizedToolCall :=
  let fc := getattr_default part "function_call" PNone in
  mkCall (getattr_default fc "name" PNone) (getattr_default fc "args" PNone) part.

(** The text [Agent.execute_tool] returns for a call. *)
Definition tool_result (json_loads : string -> Result PyVal)
    (json_dumps py_str : PyVal -> string)
    (query_database search_wikipedia : PyVal -> Result PyVal)
    (tool_call : PyVal) : PyVal :=
  match execute_tool json_loads json_dumps py_str query_database
          search_wikipedia tool_call with
  | Ok v => v
  | Raise _ => PNone
  end.

(** A message dict with the given role. *)
Definition has_role (role : string) (m : PyVal) : bool :=
  match m with
  | PDict d =>
      match assoc "role" d with
      | Some r => eq_str r role
      | None => false
      end
  | _ => false
  end.

(** An adapter that also counts the calls of its [chat]. *)
Definition counting {LLM : Type}
    (llm_chat : LLM -> list PyVal -> PyVal -> string -> bool
                -> Result ChatReturn * LLM)
    (st : LLM * nat) (messages : list PyVal) (tools : PyVal)
    (tool_choice : string) (stream : bool) : Result ChatReturn * (LLM * nat) :=
  let '(reply, llm') := llm_chat (fst st) messages tools tool_choice stream in
  (reply, (llm', S (snd st))).

(** A message dict whose role is not [user]. *)
Definition other_role_dict (m : PyVal) : bool :=
  match m with
  | PDict d =>
      negb (eq_str (match assoc "role" d with Some r => r | None => PNone end)
                   "user")
  | _ => false
  end.

(** The lines of a file with their numbers, counted from 1, and the
    entry [search_in_file] reports for a numbered line. *)
Definition numbered (lines : list string) : list (nat * string) :=
  combine (seq 1 (length lines)) lines.

Definition report (strip : string -> string) (entry : nat * string) : string :=
  (Tools.decimal (fst entry) ++ ": " ++ strip (snd entry))%string.

(** The exception of the first path, in the given order, that exists but
    cannot be read. *)
Fixpoint first_unreadable (fs : string -> Tools.FsEntry) (files : list string)
  : option Exn :=
  match files with
  | [] => None
  | file :: rest =>
      match fs file with
      | Tools.Unreadable e => Some e
      | _ => first_unreadable fs rest
      end
  end.

(** What holds of the result dict while [search_in_project] loops: keys
    are distinct and among the globbed files, and every value is the
    non-empty match list of its file. *)
Definition results_ok (fs : string -> Tools.FsEntry) (strip : string -> string)
    (query : string) (all : list string)
    (results : list (string * list string)) : Prop :=
  NoDup (keys results)
  /\ (forall f, In f (keys results) -> In f all)
  /\ (forall f m, assoc f results = Some m ->
                  m <> [] /\ Tools.search_in_file fs strip f query = Ok m).

End Props.

(* ================================================================== *)
(** ** Test data for the helpers of [tools.py] *)
(* ================================================================== *)

Module ToolSamples.

(** A project with one text file, one directory and one missing path. *)
Definition sample_fs (path : string) : Tools.FsEntry :=
  if String.eqb path "a.py" then Tools.File ["import os"; "x = 1"; "import re"]
  else if String.eqb path "pkg.py"
       then Tools.Unreadable (mkExn SdkError "Is a directory: pkg.py")
       else Tools.Missing.

End ToolSamples.

(* ================================================================== *)
(** ** Properties of [tools_base.py] *)
(* ================================================================== *)

Section ToolsBaseFacts.

Import ToolsBase Spec.

Lemma build_tool_schema_shape (fn : PyFunction) :
  exists params,
    build_tool_schema fn = schema_shape (mkDef (fn_name fn) (doc_or_name fn) params).
Proof.
  unfold build_tool_schema.
  destruct (fold_left schema_step (fn_parameters fn) ([], [])) as [properties required].
  eexists. unfold schema_shape. cbn. reflexivity.
Qed.

Lemma dict_set_Forall {V : Type} (P : string * V -> Prop) k v d :
  P (k, v) -> Forall P d -> Forall P (dict_set k v d).
Proof.
  intros Hkv Hd. induction Hd as [|[k' v'] d' Hx Hd' IH]; cbn.
  - constructor; [assumption | constructor].
  - destruct (String.eqb k k'); constructor; assumption.
Qed.

Lemma tool_entry_ok fn registry :
  Forall entry_ok registry -> Forall entry_ok (tool fn registry).
Proof.
  intros H. unfold tool. apply dict_set_Forall; [|assumption].
  destruct (build_tool_schema_shape fn) as [params Hs].
  exists (mkDef (fn_name fn) (doc_or_name fn) params). cbn. split; [exact Hs | reflexivity].
Qed.

Lemma registered_entry_ok fns : Forall entry_ok (registered fns).
Proof.
  unfold registered.
  assert (G : forall registry, Forall entry_ok registry ->
                Forall entry_ok (fold_left (fun r fn => tool fn r) fns registry)).
  { induction fns as [|fn fns IH]; intros registry H; cbn.
    - assumption.
    - apply IH. apply tool_entry_ok. assumption. }
  apply G. constructor.
Qed.

Lemma read_shapes (td : ToolDefinition) :
  read_schema (schema_shape td) = Some td
  /\ read_openai (openai_shape td) = Some td
  /\ read_anthropic (anthropic_shape td) = Some td
  /\ read_gemini (gemini_shape td) = Some td.
Proof.
  destruct td as [n d p]. repeat split; reflexivity.
Qed.

Lemma exports_of_ok_registry (registry : Registry) :
  Forall entry_ok registry ->
  exists defs : list ToolDefinition,
    map registered_definition (values registry) = map Some defs
    /\ map td_name defs = keys registry
    /\ openai_tools_format registry = Ok (map openai_shape defs)
    /\ anthropic_tools_format registry = Ok (map anthropic_shape defs)
    /\ gemini_tools_format registry = Ok (map gemini_shape defs).
Proof.
  unfold openai_tools_format, anthropic_tools_format, gemini_tools_format.
  induction 1 as [|[k t] registry [td [Hs Hn]] Hrest IH].
  - exists []. repeat split; reflexivity.
  - destruct IH as [defs (Hd & Hk & Ho & Ha & Hg)].
    cbn in Hs, Hn. exists (td :: defs).
    unfold values, keys in *. cbn [map fst snd collect].
    rewrite Ho, Ha, Hg, Hd, Hk.
    unfold registered_definition, openai_entry, anthropic_entry, gemini_entry.
    rewrite Hs, Hn.
    destruct (read_shapes td) as [Hr _]. rewrite Hr.
    destruct td as [n d p]; cbn in *. subst.
    repeat split; reflexivity.
Qed.

End ToolsBaseFacts.

Section ExportFacts.

Import ToolsBase Spec Samples.

Example build_tool_schema_add :
  build_tool_schema sample_add =
  PDict [("name", PStr "add");
         ("description", PStr "Add two integers.");
         ("parameters",
          PDict [("type", PStr "object");
                 ("properties",
                  PDict [("a", PDict [("type", PStr "integer");
                                      ("description", PStr "Parameter `a`")]);
                         ("b", PDict [("type", PStr "integer");
                                      ("description", PStr "Parameter `b`")])]);
                 ("required", PList [PStr "a"; PStr "b"])])].
Proof. reflexivity. Qed.

Example registering_twice_keeps_one_entry :
  keys (registered [sample_add; sample_greet; sample_add]) = ["add"; "greet"].
Proof. reflexivity. Qed.

Example anthropic_export_of_samples :
  anthropic_tools_format (registered [sample_greet]) =
  Ok [PDict [("name", PStr "greet");
             ("description", PStr "greet");
             ("input_schema",
              PDict [("type", PStr "object");
                     ("properties",
                      PDict [("name", PDict [("type", PStr "string");
                                             ("description", PStr "Parameter `name`")]);
                             ("punctuation",
                              PDict [("type", PStr "string");
                                     ("description", PStr "Parameter `punctuation`")])]);
                     ("required", PList [PStr "name"])])]].
Proof. reflexivity. Qed.

Lemma exported_names_of_shapes (read : PyVal -> option ToolDefinition)
    (shape : ToolDefinition -> PyVal) (defs : list ToolDefinition) :
  (forall td, read (shape td) = Some td) ->
  exported_names read (map shape defs) = map Some (map td_name defs).
Proof.
  intros Hread. unfold exported_names. rewrite !map_map.
  apply map_ext. intros td. rewrite Hread. reflexivity.
Qed.

Lemma read_back_shapes (read : PyVal -> option ToolDefinition)
    (shape : ToolDefinition -> PyVal) (defs : list ToolDefinition) :
  (forall td, read (shape td) = Some td) ->
  map read (map shape defs) = map Some defs.
Proof.
  intros Hread. rewrite map_map. apply map_ext. exact Hread.
Qed.

(** C8: whatever callables were registered, the three export formats
    succeed; the tool names each of them shows are, in order, the keys of
    the registry; and each entry is the target shape of the definition
    registered for that tool, from which name, description and
    parameters are read back unchanged. *)
Theorem export_formats_carry_registry (fns : list PyFunction) :
  exists (defs : list ToolDefinition) (native anthropic generic : list PyVal),
    map registered_definition (values (registered fns)) = map Some defs
    /\ openai_tools_format (registered fns) = Ok native
    /\ anthropic_tools_format (registered fns) = Ok anthropic
    /\ gemini_tools_format (registered fns) = Ok generic
    /\ exported_names read_openai native = map Some (keys (registered fns))
    /\ exported_names read_anthropic anthropic = map Some (keys (registered fns))
    /\ exported_names read_gemini generic = map Some (keys (registered fns))
    /\ native = map openai_shape defs
    /\ anthropic = map anthropic_shape defs
    /\ generic = map gemini_shape defs
    /\ map read_openai native = map Some defs
    /\ map read_anthropic anthropic = map Some defs
    /\ map read_gemini generic = map Some defs.
Proof.
  destruct (exports_of_ok_registry (registered fns) (registered_entry_ok fns))
    as [defs (Hd & Hk & Ho & Ha & Hg)].
  exists defs, (map openai_shape defs), (map anthropic_shape defs),
         (map gemini_shape defs).
  rewrite <- Hk.
  repeat split; try assumption;
    solve [ apply exported_names_of_shapes; intros td; apply (read_shapes td)
          | apply read_back_shapes; intros td; apply (read_shapes td) ].
Qed.

End ExportFacts.

Section NormalizeFacts.

Import ToolsBase Spec Samples.

Lemma openai_call_verbatim (tc : PyVal) :
  has_function_name tc = true -> openai_call tc = Ok (verbatim_call tc).
Proof.
  unfold has_function_name, openai_call, verbatim_call, function_field.
  destruct tc as [ | | | | | | d | ]; try discriminate. cbn.
  destruct (assoc "function" d) as [f|]; try discriminate.
  destruct f as [ | | | | | | fd | ]; try discriminate. cbn.
  destruct (assoc "name" fd) as [n|]; try discriminate. cbn.
  intros _. reflexivity.
Qed.

Lemma collect_openai_calls (tcs : list PyVal) :
  Forall (fun tc => has_function_name tc = true) tcs ->
  collect openai_call tcs = Ok (map verbatim_call tcs).
Proof.
  induction 1 as [|tc tcs Htc _ IH]; cbn [collect map].
  - reflexivity.
  - rewrite (openai_call_verbatim tc Htc), IH. reflexivity.
Qed.

Lemma normalize_none (provider : string) :
  normalize_tool_calls provider PNone = Ok [].
Proof. reflexivity. Qed.

Lemma normalize_unknown_tag (provider : string) (payload : PyVal) :
  is_openai_compatible provider = false ->
  String.eqb provider "anthropic" = false ->
  String.eqb provider "gemini" = false ->
  normalize_tool_calls provider payload = Ok [].
Proof.
  intros H1 H2 H3. unfold normalize_tool_calls. rewrite H1, H2, H3.
  destruct payload; reflexivity.
Qed.

Lemma normalize_openai_without_key (provider : string) (d : list (string * PyVal)) :
  is_openai_compatible provider = true ->
  assoc "tool_calls" d = None ->
  normalize_tool_calls provider (PDict d) = Ok [].
Proof.
  intros H1 H2. unfold normalize_tool_calls. rewrite H1. cbn. rewrite H2. reflexivity.
Qed.




(** C5 at the failing inputs: an OpenAI-style message whose [tool_calls]
    is [None] and a Gemini reply with no candidate both make
    [normalize_tool_calls] raise instead of returning the empty list. *)
Theorem normalize_raises_without_tool_calls :
  normalize_tool_calls "openai" openai_message_without_calls
    = Raise (mkExn TypeError "object is not iterable")
  /\ normalize_tool_calls "gemini" gemini_reply_without_candidates
    = Raise (mkExn IndexError "list index out of range").
Proof. split; reflexivity. Qed.

(** [execute_tool] of [tools_base.py] on a name that is not a key. *)
Lemma execute_tool_unregistered registry name args :
  assoc name registry = None ->
  execute_tool registry name args
  = Raise (mkExn ValueError ("Tool `" ++ name ++ "` not registered")).
Proof. intros H. unfold execute_tool. rewrite H. reflexivity. Qed.


End NormalizeFacts.

(* ================================================================== *)
(** ** Properties of the provider adapters *)
(* ================================================================== *)

Section AdapterFacts.

Import Providers Spec.

Variable py_str : PyVal -> string.

(** When the streaming request itself fails, the generator yields nothing
    and ends with the non-streaming result as its return value. *)
Lemma with_fallback_create_fails e normalise non_stream :
  with_fallback true (Raise e) normalise non_stream
  = mkGen [] (r <- non_stream ;; Ok (Some r)).
Proof. reflexivity. Qed.

(** When the stream breaks after some chunks, those chunks are all the
    caller's loop sees. *)
Lemma with_fallback_yields_stream_chunks_only create normalise non_stream :
  yielded (with_fallback true create normalise non_stream)
  = fst (stream_phase create normalise).
Proof.
  unfold with_fallback.
  destruct (stream_phase create normalise) as [cs [e|]]; reflexivity.
Qed.

Lemma last_user_content_total (ms : list PyVal) :
  Forall (fun m => is_message m = true) ms ->
  exists v, last_user_content ms = Ok v.
Proof.
  induction 1 as [|m ms Hm _ IH]; cbn.
  - eexists; reflexivity.
  - destruct m as [ | | | | | | d | ]; try discriminate Hm. cbn.
    destruct (eq_str _ "user"); [eexists; reflexivity | exact IH].
Qed.

Lemma last_item_in (m : PyVal) (ms : list PyVal) :
  exists x, last_item (m :: ms) = Ok x /\ In x (m :: ms).
Proof.
  unfold last_item. destruct (rev (m :: ms)) as [|x l] eqn:E.
  - apply (f_equal (@length PyVal)) in E. rewrite length_rev in E. discriminate E.
  - exists x. split; [reflexivity|]. apply in_rev. rewrite E. left. reflexivity.
Qed.

Lemma message_has_content (m : PyVal) :
  is_message m = true -> exists c, item m "content" = Ok c.
Proof.
  destruct m as [ | | | | | | d | ]; try discriminate. cbn.
  destruct (assoc "role" d); try discriminate.
  destruct (assoc "content" d) as [c|]; try discriminate.
  intros _. exists c. reflexivity.
Qed.

Lemma gemini_prompt_total (messages : list PyVal) :
  Forall (fun m => is_message m = true) messages ->
  exists prompt, gemini_prompt messages = Ok prompt.
Proof.
  intros Hms. unfold gemini_prompt.
  destruct (last_user_content_total (rev messages)) as [v Hv].
  { apply Forall_rev. exact Hms. }
  rewrite Hv. cbn [bind].
  destruct (truthy v); [eexists; reflexivity|].
  destruct messages as [|m ms]; [eexists; reflexivity|].
  destruct (last_item_in m ms) as [x [Hx Hin]]. rewrite Hx. cbn [bind].
  apply message_has_content.
  rewrite Forall_forall in Hms. apply Hms. exact Hin.
Qed.

(** Whatever the messages and the SDK do, a response that ends a
    non-streaming [chat] carries no tool call. *)
Lemma gemini_response_has_no_tool_calls
    (sdk : GenAI) (model : string) (messages : list PyVal) (tools : PyVal)
    (tool_choice : string) (elapsed : PyVal) (r : Response) :
  finished (GeminiProvider_chat py_str sdk model messages tools tool_choice
              false elapsed) = Ok (Some r) ->
  resp_tool_calls r = PNone.
Proof.
  unfold GeminiProvider_chat.
  destruct (gemini_prompt messages) as [prompt|e]; cbn; [|discriminate].
  destruct (generate sdk model prompt) as [reply|e]; cbn; [|discriminate].
  intros H. injection H as <-. reflexivity.
Qed.


End AdapterFacts.

Section AdapterScenarios.

Import Providers Spec Samples.


Example gemini_reply_does_carry_a_call :
  ToolsBase.normalize_tool_calls "gemini" gemini_reply_with_call
  = Ok [ToolsBase.mkCall (PStr "add") (PDict [("a", PInt 2); ("b", PInt 2)])
          (PObj [("function_call",
                  PObj [("name", PStr "add");
                        ("args", PDict [("a", PInt 2); ("b", PInt 2)])])])].
Proof. reflexivity. Qed.

Example object_delta_breaks_the_stream :
  OpenRouterProvider_chat object_delta_openrouter "some/model" sample_messages
    PNone "auto" true (PFloat 0)
  = mkGen [] (Ok (Some (mkResponse (PStr "hello") PNone (PStr "stop") PNone
                                   (PFloat 0) openrouter_reply))).
Proof. reflexivity. Qed.

(** C6 at the failing inputs: with [stream] true and a streaming request
    that fails, the Claude and OpenRouter adapters do make the
    non-streaming request, but its response only becomes the generator's
    return value; the generator yields no chunk, so a caller that
    iterates over what [chat] returned receives nothing. *)
Theorem stream_fallback_response_is_not_yielded (elapsed : PyVal) :
  ClaudeProvider_chat show sample_anthropic "claude-3" sample_messages PNone
    "auto" true elapsed
    = mkGen [] (Ok (Some (mkResponse (PStr "hello") PNone PNone PNone elapsed
                                     claude_reply)))
  /\ for_loop (ClaudeProvider_chat show sample_anthropic "claude-3"
                 sample_messages PNone "auto" true elapsed)
     = ([], Ok tt)
  /\ OpenRouterProvider_chat sample_openrouter "some/model" sample_messages
       PNone "auto" true elapsed
     = mkGen [] (Ok (Some (mkResponse (PStr "hello") PNone (PStr "stop") PNone
                                      elapsed openrouter_reply)))
  /\ for_loop (OpenRouterProvider_chat sample_openrouter "some/model"
                 sample_messages PNone "auto" true elapsed)
     = ([], Ok tt).
Proof. repeat split; reflexivity. Qed.

End AdapterScenarios.

(* ================================================================== *)
(** ** Properties of [ProviderFactory] *)
(* ================================================================== *)

Section FactoryFacts.

Import Providers Spec.

Lemma lower_upper_char (b : ascii) :
  lower_char b = b -> lower_char (upper_char b) = b.
Proof.
  destruct b as [[] [] [] [] [] [] [] []]; vm_compute; intros H;
    first [reflexivity | discriminate H].
Qed.

Lemma lower_char_origin (a : ascii) :
  Ascii.eqb a (lower_char a) || Ascii.eqb a (upper_char (lower_char a)) = true.
Proof.
  destruct a as [[] [] [] [] [] [] [] []]; vm_compute; reflexivity.
Qed.

Lemma casing_char (a b : ascii) :
  lower_char b = b ->
  Ascii.eqb a b || Ascii.eqb a (upper_char b) = Ascii.eqb (lower_char a) b.
Proof.
  intros Hb. destruct (Ascii.eqb_spec (lower_char a) b) as [E|N].
  - subst b. apply lower_char_origin.
  - apply orb_false_iff. split; apply Ascii.eqb_neq; intros E; apply N; subst a.
    + exact Hb.
    + apply lower_upper_char. exact Hb.
Qed.

(** Against a name without capitals, comparing character by character up
    to case is comparing the lowered string. *)
Lemma casing_is_lower (s t : string) :
  lower t = t -> is_casing_of s t = String.eqb (lower s) t.
Proof.
  revert t. induction s as [|a s IH]; intros [|b t] Ht; cbn; try reflexivity.
  cbn in Ht. injection Ht as Hb Ht.
  rewrite (casing_char a b Hb), (IH t Ht). reflexivity.
Qed.

Example factory_accepts_mixed_case :
  ProviderFactory "OpenRouter" "some/model" = Ok (OpenRouterProvider "some/model")
  /\ is_casing_of "OpenRouter" "openrouter" = true.
Proof. split; reflexivity. Qed.

Example factory_rejects_other_names :
  ProviderFactory "Mistral" "large"
  = Raise (mkExn ValueError "Unknown provider: Mistral").
Proof. reflexivity. Qed.


End FactoryFacts.

(* ================================================================== *)
(** ** Properties of the agent loop *)
(* ================================================================== *)

Section AgentFacts.

Import Providers AgentCore.

Variable json_loads : string -> Result PyVal.
Variable json_dumps : PyVal -> string.
Variable py_str : PyVal -> string.
Variable query_database : PyVal -> Result PyVal.
Variable search_wikipedia : PyVal -> Result PyVal.
Variable LLM : Type.
Variable llm_chat :
  LLM -> list PyVal -> PyVal -> string -> bool -> Result ChatReturn * LLM.
Variable adapter : Provider -> LLM.

Local Abbreviation read_tool_call := (AgentCore.read_tool_call json_loads).
Local Abbreviation dispatch :=
  (AgentCore.dispatch json_dumps py_str query_database search_wikipedia).
Local Abbreviation execute_tool :=
  (AgentCore.execute_tool json_loads json_dumps py_str query_database
     search_wikipedia).
Local Abbreviation run_tools :=
  (AgentCore.run_tools json_loads json_dumps py_str query_database
     search_wikipedia LLM).
Local Abbreviation rounds :=
  (AgentCore.rounds json_loads json_dumps py_str query_database
     search_wikipedia LLM llm_chat).
Local Abbreviation tool_rounds :=
  (AgentCore.tool_rounds json_loads json_dumps py_str query_database
     search_wikipedia LLM llm_chat).
Local Abbreviation process_query :=
  (AgentCore.process_query json_loads json_dumps py_str query_database
     search_wikipedia LLM llm_chat).
Local Abbreviation process_query_default :=
  (AgentCore.process_query_default json_loads json_dumps py_str query_database
     search_wikipedia LLM llm_chat).
Local Abbreviation init := (AgentCore.init LLM adapter).

(** Both [try] blocks of [execute_tool] end in a [return]. *)
Lemma execute_tool_returns (tool_call : PyVal) :
  exists text, execute_tool tool_call = Ok text.
Proof.
  unfold AgentCore.execute_tool.
  destruct (read_tool_call tool_call) as [[fn args]|e].
  - destruct (dispatch fn args) as [v|e]; cbn; eexists; reflexivity.
  - eexists; reflexivity.
Qed.

Lemma dispatch_unknown (name : string) (args : PyVal) :
  name <> "query_database" -> name <> "search_wikipedia" ->
  dispatch (PStr name) args
  = Ok (PStr (json_dumps (error_record ("Unknown tool: " ++ name)))).
Proof.
  intros H1 H2. unfold AgentCore.dispatch. cbn [eq_str].
  apply String.eqb_neq in H1, H2. rewrite H1, H2. reflexivity.
Qed.

(** The tool loop appends one message per call and nothing else. *)
Lemma run_tools_appends (tcs : list PyVal) (self : Agent LLM) :
  exists added,
    run_tools self tcs = (mkAgent (llm self) (messages self ++ added), Ok tt)
    /\ length added = length tcs.
Proof.
  revert self. induction tcs as [|tc tcs IH]; intros self; cbn [AgentCore.run_tools].
  - exists []. rewrite app_nil_r. destruct self; split; reflexivity.
  - destruct (execute_tool_returns tc) as [text Ht]. rewrite Ht.
    destruct (IH (append self (tool_message tc text))) as [added [Hr Hl]].
    exists (tool_message tc text :: added). rewrite Hr. cbn.
    rewrite <- app_assoc. split; [reflexivity | now rewrite Hl].
Qed.

Lemma rounds_extend_history (n : nat) (self : Agent LLM) (last : PyVal) :
  exists added, messages (fst (rounds n self last)) = messages self ++ added.
Proof.
  revert self. induction n as [|n IH]; intros self.
  - cbn. eexists; reflexivity.
  - cbn [AgentCore.rounds].
    destruct (llm_chat (llm self) (messages self) PNone "auto" false)
      as [[[r|g]|e] llm']; cbn.
    + destruct (truthy (resp_tool_calls r)); cbn.
      * destruct (iter (resp_tool_calls r)) as [tcs|e]; cbn.
        -- destruct (run_tools_appends tcs (mkAgent llm' (messages self)))
             as [added [Hr _]].
           rewrite Hr. cbn in *.
           destruct (IH (mkAgent llm' (messages self ++ added))) as [more Hm].
           exists (added ++ more). rewrite Hm. cbn. now rewrite app_assoc.
        -- exists []. now rewrite app_nil_r.
      * eexists; reflexivity.
    + exists []. now rewrite app_nil_r.
    + exists []. now rewrite app_nil_r.
Qed.

(** After [k] rounds of tool calls the loop is where it would be had it
    started from the agent those rounds produce. *)
Lemma rounds_after_tool_rounds (k n : nat) (self self_k : Agent LLM) (last : PyVal) :
  tool_rounds k self = Some self_k ->
  rounds (k + n) self last = rounds n self_k last.
Proof.
  revert self. induction k as [|k IH]; intros self H.
  - cbn in H. injection H as ->. reflexivity.
  - cbn [AgentCore.tool_rounds] in H. cbn [Nat.add AgentCore.rounds].
    destruct (llm_chat (llm self) (messages self) PNone "auto" false)
      as [[[r|g]|e] llm']; try discriminate H.
    cbn [bind response_get].
    destruct (resp_tool_calls r) as [ | | | | | [|tc tcs] | | ]; try discriminate H.
    cbn [truthy negb iter].
    destruct (run_tools (mkAgent llm' (messages self)) (tc :: tcs))
      as [self' [[]|e]]; try discriminate H.
    apply IH. exact H.
Qed.

Lemma tool_rounds_extend_history (k : nat) (self self_k : Agent LLM) :
  tool_rounds k self = Some self_k ->
  exists added, messages self_k = messages self ++ added.
Proof.
  revert self. induction k as [|k IH]; intros self H.
  - cbn in H. injection H as ->. exists []. now rewrite app_nil_r.
  - cbn [AgentCore.tool_rounds] in H.
    destruct (llm_chat (llm self) (messages self) PNone "auto" false)
      as [[[r|g]|e] llm']; try discriminate H.
    destruct (resp_tool_calls r) as [ | | | | | [|tc tcs] | | ]; try discriminate H.
    destruct (run_tools_appends (tc :: tcs) (mkAgent llm' (messages self)))
      as [added [Hr _]].
    rewrite Hr in H. cbn in H.
    destruct (IH _ H) as [more Hm]. exists (added ++ more).
    rewrite Hm. cbn. now rewrite app_assoc.
Qed.

(** An adapter whose [chat] is a generator function hands the loop a
    generator object, and the first [normalized.get] raises. *)
Lemma generator_reply_ends_the_turn (n : nat) (self : Agent LLM) (last : PyVal)
    (g : ChatGenerator) (llm' : LLM) :
  llm_chat (llm self) (messages self) PNone "auto" false = (Ok (RGenerator g), llm') ->
  rounds (S n) self last
  = (mkAgent llm' (messages self),
     Raise (mkExn AttributeError "'generator' object has no attribute 'get'")).
Proof. intros H. cbn [AgentCore.rounds]. rewrite H. reflexivity. Qed.




(** C9: a turn only appends to the history: after [process_query], in
    either mode and however it ends, the history is the history before
    the turn followed by the user message and further messages; and a new
    agent's history is the system message alone. *)
Theorem history_is_append_only
    (self : Agent LLM) (user_input : string) (max_iterations : Z) (stream : bool) :
  (exists added,
     messages (fst (process_query self user_input max_iterations stream))
     = messages self ++ message "user" (PStr user_input) :: added)
  /\ (forall system_prompt provider model,
        match init system_prompt provider model with
        | Ok a =>
            messages a
            = [message "system" (PStr (prompt_or_default system_prompt))]
        | Raise _ => True
        end).
Proof.
  split.
  - unfold AgentCore.process_query. destruct stream.
    + destruct (llm_chat _ _ PNone "auto" true) as [gen llm']. cbn.
      exists []. reflexivity.
    + destruct (rounds_extend_history (Z.to_nat max_iterations)
                  (append self (message "user" (PStr user_input)))
                  (PStr EmptyString)) as [added Ha].
      destruct (rounds _ _ _) as [self' out]. cbn in *.
      exists added. rewrite Ha, <- app_assoc. reflexivity.
  - intros system_prompt provider model. unfold AgentCore.init.
    destruct (ProviderFactory provider model); cbn; [reflexivity | exact I].
Qed.

End AgentFacts.

(* ================================================================== *)
(** ** The scenarios of the specification, run on test doubles *)
(* ================================================================== *)

Section AgentScenarios.

Import Providers AgentCore Samples.




Example tool_round_then_answer :
  AgentCore.process_query toy_loads toy_dumps show toy_tool toy_tool nat
    add_then_answer fresh_agent "add 2 and 3" 5 false
  = (mkAgent 2 [message "system" (PStr "You are a helpful assistant.");
                message "user" (PStr "add 2 and 3");
                tool_message add_call unknown_tool_text;
                message "assistant" (PStr "5")],
     Ok (Content (PStr "5"))).
Proof. reflexivity. Qed.

(** With an adapter made by [ProviderFactory], a non-streaming turn that
    enters the loop ends at the first [normalized.get]. *)
Lemma factory_adapter_turn_raises (json_loads : string -> Result PyVal)
    (json_dumps py_str : PyVal -> string)
    (query_database search_wikipedia : PyVal -> Result PyVal)
    (sdk : Sdk) (elapsed : PyVal) (self : Agent Provider)
    (user_input : string) (n : positive) :
  AgentCore.process_query json_loads json_dumps py_str query_database
    search_wikipedia Provider (factory_chat py_str sdk elapsed) self user_input
    (Zpos n) false
  = (append self (message "user" (PStr user_input)),
     Raise (mkExn AttributeError "'generator' object has no attribute 'get'")).
Proof.
  unfold AgentCore.process_query.
  destruct (Z.to_nat (Zpos n)) as [|m] eqn:E; [lia|].
  rewrite (generator_reply_ends_the_turn json_loads json_dumps py_str
             query_database search_wikipedia Provider
             (factory_chat py_str sdk elapsed) m _ _ _ _ eq_refl).
  destruct self; reflexivity.
Qed.

End AgentScenarios.

(* ================================================================== *)
(** ** Further properties of [tools_base.py] *)
(* ================================================================== *)

Section DictFacts.

Context {V : Type}.

Lemma assoc_dict_set_same (k : string) (v : V) (d : list (string * V)) :
  assoc k (dict_set k v d) = Some v.
Proof.
  induction d as [|[k' v'] d IH]; cbn.
  - now rewrite String.eqb_refl.
  - destruct (String.eqb k k') eqn:E; cbn; rewrite ?String.eqb_refl, ?E; auto.
Qed.

Lemma assoc_dict_set_other (k k' : string) (v : V) (d : list (string * V)) :
  k <> k' -> assoc k' (dict_set k v d) = assoc k' d.
Proof.
  intros N. induction d as [|[k0 v0] d IH]; cbn.
  - apply String.eqb_neq in N. rewrite String.eqb_sym in N. now rewrite N.
  - destruct (String.eqb k k0) eqn:E; cbn.
    + apply String.eqb_eq in E. subst k0.
      apply String.eqb_neq in N. rewrite String.eqb_sym in N. now rewrite N.
    + now rewrite IH.
Qed.

Lemma assoc_none_not_in (k : string) (d : list (string * V)) :
  assoc k d = None <-> ~ In k (keys d).
Proof.
  induction d as [|[k' v'] d IH]; cbn.
  - tauto.
  - destruct (String.eqb_spec k k') as [->|N].
    + split; [discriminate | intros H; exfalso; apply H; now left].
    + rewrite IH. split; [intros H [E|I]; [congruence | tauto] | tauto].
Qed.

Lemma dict_set_absent (k : string) (v : V) (d : list (string * V)) :
  ~ In k (keys d) -> dict_set k v d = d ++ [(k, v)].
Proof.
  induction d as [|[k' v'] d IH]; cbn; intros H.
  - reflexivity.
  - destruct (String.eqb_spec k k') as [->|N]; [exfalso; apply H; now left|].
    rewrite IH; [reflexivity | tauto].
Qed.

Lemma keys_dict_set_present (k : string) (v : V) (d : list (string * V)) :
  In k (keys d) -> keys (dict_set k v d) = keys d.
Proof.
  induction d as [|[k' v'] d IH]; cbn; intros H.
  - contradiction.
  - destruct (String.eqb_spec k k') as [->|N]; cbn; [reflexivity|].
    f_equal. apply IH. destruct H; [congruence | assumption].
Qed.

Lemma keys_dict_set_cases (k : string) (v : V) (d : list (string * V)) :
  (In k (keys d) /\ keys (dict_set k v d) = keys d)
  \/ (~ In k (keys d) /\ keys (dict_set k v d) = keys d ++ [k]).
Proof.
  destruct (in_dec string_dec k (keys d)) as [I|N].
  - left. split; [assumption | now apply keys_dict_set_present].
  - right. split; [assumption|]. rewrite dict_set_absent by assumption.
    unfold keys. now rewrite map_app.
Qed.

Lemma NoDup_keys_dict_set (k : string) (v : V) (d : list (string * V)) :
  NoDup (keys d) -> NoDup (keys (dict_set k v d)).
Proof.
  intros H. destruct (keys_dict_set_cases k v d) as [[_ E]|[N E]]; rewrite E.
  - assumption.
  - apply NoDup_app; [assumption | repeat constructor; intros [] | ].
    intros x Hx [<-|[]]. contradiction.
Qed.

End DictFacts.

Section RegistryFacts.

Import ToolsBase Spec Props Samples.

Lemma registered_snoc (fns : list PyFunction) (fn : PyFunction) :
  registered (fns ++ [fn]) = tool fn (registered fns).
Proof. unfold registered. now rewrite fold_left_app. Qed.

Lemma latest_snoc (name : string) (fns : list PyFunction) (fn : PyFunction) :
  latest name (fns ++ [fn])
  = if String.eqb name (fn_name fn) then Some fn else latest name fns.
Proof. unfold latest. rewrite rev_app_distr. reflexivity. Qed.

Lemma assoc_registered (name : string) (fns : list PyFunction) :
  assoc name (registered fns)
  = option_map (fun fn => mkTool fn (build_tool_schema fn)) (latest name fns).
Proof.
  induction fns as [|fn fns IH] using rev_ind.
  - reflexivity.
  - rewrite registered_snoc, latest_snoc. unfold tool.
    destruct (String.eqb_spec name (fn_name fn)) as [->|N].
    + now rewrite assoc_dict_set_same.
    + rewrite assoc_dict_set_other by congruence. exact IH.
Qed.

Lemma latest_in (name : string) (fns : list PyFunction) (fn : PyFunction) :
  latest name fns = Some fn -> In fn fns /\ fn_name fn = name.
Proof.
  unfold latest. intros H. apply find_some in H. destruct H as [I E].
  apply in_rev in I. apply String.eqb_eq in E. auto.
Qed.

(** The registry behaves as a map from names to the callable decorated
    last under that name: [execute_tool] on the registry built from any
    sequence of decorations calls exactly that callable with the given
    arguments, and raises [ValueError] when no callable of that name was
    decorated. *)
Theorem execute_tool_calls_latest_registration
    (fns : list PyFunction) (name : string) (args : list (string * PyVal)) :
  execute_tool (registered fns) name args
  = match latest name fns with
    | Some fn => fn_call fn args
    | None => Raise (mkExn ValueError ("Tool `" ++ name ++ "` not registered"))
    end.
Proof.
  unfold execute_tool. rewrite assoc_registered.
  destruct (latest name fns); reflexivity.
Qed.

Lemma keys_registered_in (fns : list PyFunction) (name : string) :
  In name (keys (registered fns)) <-> In name (map fn_name fns).
Proof.
  induction fns as [|fn fns IH] using rev_ind.
  - reflexivity.
  - rewrite registered_snoc, map_app, in_app_iff. unfold tool. cbn [map In].
    destruct (keys_dict_set_cases (fn_name fn)
                (mkTool fn (build_tool_schema fn)) (registered fns))
      as [[I E]|[N E]]; rewrite E.
    + rewrite IH. split; [tauto|]. intros [H|[<-|[]]]; [assumption|].
      apply IH. exact I.
    + rewrite in_app_iff, IH. cbn. tauto.
Qed.

(** Tool names are unique in the registry whatever is decorated, and the
    names in the registry are exactly the names of the decorated
    callables. *)
Theorem registry_names_are_unique (fns : list PyFunction) :
  NoDup (keys (registered fns))
  /\ (forall name, In name (keys (registered fns)) <-> In name (map fn_name fns)).
Proof.
  split; [|intros name; apply keys_registered_in].
  induction fns as [|fn fns IH] using rev_ind.
  - constructor.
  - rewrite registered_snoc. unfold tool. now apply NoDup_keys_dict_set.
Qed.

(** When the decorated callables have pairwise distinct names, the
    registry lists them in decoration order, each with the schema built
    from it, so the exports follow the order of the decorators. *)
Theorem distinct_names_keep_decoration_order (fns : list PyFunction) :
  NoDup (map fn_name fns) ->
  registered fns
  = map (fun fn => (fn_name fn, mkTool fn (build_tool_schema fn))) fns.
Proof.
  induction fns as [|fn fns IH] using rev_ind; intros H.
  - reflexivity.
  - rewrite registered_snoc, map_app. cbn [map].
    rewrite map_app in H. apply NoDup_app_remove_r in H as H'.
    unfold tool. rewrite dict_set_absent.
    + now rewrite IH.
    + rewrite keys_registered_in. intros I.
      apply NoDup_remove_2 in H. rewrite app_nil_r in H. contradiction.
Qed.

Lemma distinct_names_keep_decoration_order_witness :
  registered [sample_add; sample_greet]
  = map (fun fn => (fn_name fn, mkTool fn (build_tool_schema fn)))
        [sample_add; sample_greet].
Proof.
  apply (distinct_names_keep_decoration_order [sample_add; sample_greet]).
  repeat constructor; cbn; intuition discriminate.
Defined.

Lemma assoc_map_values {A B : Type} (f : A -> B) (k : string)
    (d : list (string * A)) :
  assoc k (map (fun kv => (fst kv, f (snd kv))) d) = option_map f (assoc k d).
Proof.
  induction d as [|[k' a] d IH]; cbn; [reflexivity|].
  destruct (String.eqb k k'); [reflexivity | exact IH].
Qed.

(** [get_all_tool_schemas] maps every registered name to the schema built
    from the callable decorated last under that name, and has no entry
    for any other name. *)
Theorem get_all_tool_schemas_lookup (fns : list PyFunction) (name : string) :
  assoc name (get_all_tool_schemas (registered fns))
  = option_map build_tool_schema (latest name fns).
Proof.
  unfold get_all_tool_schemas.
  rewrite (assoc_map_values tool_schema), assoc_registered.
  destruct (latest name fns); reflexivity.
Qed.

Lemma schema_fold (params : list SigParam) (properties : list (string * PyVal))
    (required : list PyVal) :
  NoDup (keys properties ++ map param_name params) ->
  fold_left schema_step params (properties, required)
  = (properties ++ map property_entry params, required ++ required_names params).
Proof.
  revert properties required.
  induction params as [|p params IH]; intros properties required H; cbn.
  - now rewrite !app_nil_r.
  - assert (Hp : ~ In (param_name p) (keys properties)).
    { intros I. apply NoDup_remove_2 in H. apply H.
      apply in_or_app. now left. }
    rewrite dict_set_absent by exact Hp.
    rewrite IH.
    + unfold required_names. cbn [filter].
      rewrite <- !app_assoc. cbn.
      destruct (param_has_default p); cbn; rewrite <- ?app_assoc; reflexivity.
    + unfold keys in *. rewrite map_app. cbn. rewrite <- app_assoc. exact H.
Qed.

(** For a signature (parameter names are pairwise distinct),
    [build_tool_schema] lists one property per parameter, in order, with
    the JSON type of its annotation, and requires exactly the parameters
    without a default, in order; the description falls back to the name
    when there is no docstring. *)
Theorem build_tool_schema_of_signature (fn : PyFunction) :
  NoDup (map param_name (fn_parameters fn)) ->
  build_tool_schema fn
  = PDict [("name", PStr (fn_name fn));
           ("description", PStr (doc_or_name fn));
           ("parameters", parameters_schema (fn_parameters fn))].
Proof.
  intros H. unfold build_tool_schema.
  rewrite (schema_fold (fn_parameters fn) [] []) by exact H.
  reflexivity.
Qed.

Lemma build_tool_schema_of_signature_witness :
  build_tool_schema sample_greet
  = PDict [("name", PStr "greet");
           ("description", PStr "greet");
           ("parameters", parameters_schema (fn_parameters sample_greet))].
Proof.
  apply (build_tool_schema_of_signature sample_greet).
  repeat constructor; cbn; intuition discriminate.
Defined.

(** Importing [tools.py] registers its 24 functions under their own
    names, none overwriting another, so the exports list them in file
    order; and every parameter of every one of them is exported with the
    JSON type string. *)
Theorem tools_py_catalog (io : string -> list (string * PyVal) -> Result PyVal) :
  keys (registered (Tools.catalog io))
  = ["read_file"; "write_file"; "append_file"; "list_files"; "make_dir";
     "delete_file"; "run_bash"; "run_python"; "run_node";
     "install_python_package"; "install_npm_package"; "git_clone";
     "git_status"; "git_pull"; "git_push"; "git_commit"; "http_get";
     "http_post"; "search_in_file"; "search_in_project"; "run_tests_py";
     "run_tests_js"; "format_code"; "generate_uuid"]
  /\ Forall (fun fn =>
               Forall (fun p => ptype_of (param_annotation p) = "string")
                      (fn_parameters fn))
            (Tools.catalog io).
Proof.
  split.
  - reflexivity.
  - repeat constructor.
Qed.

End RegistryFacts.

Section NormalizeMoreFacts.

Import ToolsBase Providers Spec Props Samples.

Lemma anthropic_call_of_block (block : PyVal) :
  readable_block block = true ->
  anthropic_call block
  = Ok (if is_tool_use block then Some (tool_use_record block) else None).
Proof.
  unfold readable_block, anthropic_call, tool_use_record.
  destruct block as [ | | | | | | d | ]; try discriminate.
  unfold is_tool_use. cbn.
  destruct (assoc "type" d) as [t|]; cbn; [|reflexivity].
  destruct (eq_str t "tool_use"); [|reflexivity].
  destruct (assoc "name" d) as [n|]; [|discriminate]. reflexivity.
Qed.

Lemma collect_anthropic_calls (blocks : list PyVal) :
  Forall (fun b => readable_block b = true) blocks ->
  exists found,
    collect anthropic_call blocks = Ok found
    /\ somes found = map tool_use_record (filter is_tool_use blocks).
Proof.
  induction 1 as [|b blocks Hb _ [found [Hc Hs]]]; cbn [collect].
  - exists []. split; reflexivity.
  - rewrite (anthropic_call_of_block b Hb), Hc. cbn [bind filter].
    eexists. split; [reflexivity|].
    destruct (is_tool_use b); cbn; now rewrite Hs.
Qed.

(** For the tag [anthropic] and a payload whose [content] is a list of
    blocks (dicts; a tool-use block has a name), the result has one record
    per block of type [tool_use], in the order of the blocks, with the
    block's name, its [input] (an empty dict when absent) and the block as
    [raw]; every other block is skipped. *)
Theorem normalize_anthropic_keeps_tool_use_blocks
    (payload : PyVal) (blocks : list PyVal) :
  get payload "content" (PList []) = Ok (PList blocks) ->
  Forall (fun b => readable_block b = true) blocks ->
  normalize_tool_calls "anthropic" payload
  = Ok (map tool_use_record (filter is_tool_use blocks))
  /\ map raw (map tool_use_record (filter is_tool_use blocks))
     = filter is_tool_use blocks.
Proof.
  intros Hget Hblocks. split.
  - destruct (collect_anthropic_calls blocks Hblocks) as [found [Hc Hs]].
    destruct payload; try discriminate Hget.
    unfold normalize_tool_calls. cbn [is_openai_compatible String.eqb orb].
    change (String.eqb "anthropic" "anthropic") with true. cbv iota.
    rewrite Hget. cbn [bind iter]. rewrite Hc. cbn [bind]. now rewrite Hs.
  - rewrite map_map. rewrite <- (map_id (filter is_tool_use blocks)) at 2.
    apply map_ext. intros b. destruct b; reflexivity.
Qed.

Lemma normalize_anthropic_keeps_tool_use_blocks_witness :
  normalize_tool_calls "anthropic"
    (PDict [("content",
             PList [PDict [("type", PStr "text"); ("text", PStr "Let me add.")];
                    PDict [("type", PStr "tool_use"); ("id", PStr "toolu_1");
                           ("name", PStr "add");
                           ("input", PDict [("a", PInt 2); ("b", PInt 3)])]])])
  = Ok [mkCall (PStr "add") (PDict [("a", PInt 2); ("b", PInt 3)])
          (PDict [("type", PStr "tool_use"); ("id", PStr "toolu_1");
                  ("name", PStr "add");
                  ("input", PDict [("a", PInt 2); ("b", PInt 3)])])].
Proof.
  apply (proj1 (normalize_anthropic_keeps_tool_use_blocks
                  (PDict [("content",
                           PList [PDict [("type", PStr "text");
                                         ("text", PStr "Let me add.")];
                                  PDict [("type", PStr "tool_use");
                                         ("id", PStr "toolu_1");
                                         ("name", PStr "add");
                                         ("input", PDict [("a", PInt 2);
                                                          ("b", PInt 3)])]])])
                  _ eq_refl ltac:(repeat constructor))).
Defined.

Lemma gemini_call_of_part (part : PyVal) :
  readable_part part = true ->
  gemini_call part
  = Ok (if has_function_call part then Some (function_call_record part) else None).
Proof.
  unfold readable_part, gemini_call, has_function_call, function_call_record,
    hasattr, getattr_default.
  destruct (getattr part "function_call") as [fc|e]; [|reflexivity].
  cbn [bind].
  destruct (getattr fc "name") as [n|]; [|discriminate]. cbn [bind].
  destruct (getattr fc "args") as [a|]; [|discriminate].
  reflexivity.
Qed.

Lemma collect_gemini_calls (parts : list PyVal) :
  Forall (fun p => readable_part p = true) parts ->
  exists found,
    collect gemini_call parts = Ok found
    /\ somes found = map function_call_record (filter has_function_call parts).
Proof.
  induction 1 as [|p parts Hp _ [found [Hc Hs]]]; cbn [collect].
  - exists []. split; reflexivity.
  - rewrite (gemini_call_of_part p Hp), Hc. cbn [bind filter].
    eexists. split; [reflexivity|].
    destruct (has_function_call p); cbn; now rewrite Hs.
Qed.

(** For the tag [gemini] and a reply whose first candidate's content has
    a list of parts, the result has one record per part that has a
    [function_call] attribute (with a name and args), in the order of the
    parts; candidates after the first are not looked at. *)
Theorem normalize_gemini_reads_first_candidate
    (reply first content : PyVal) (others parts : list PyVal) :
  getattr reply "candidates" = Ok (PList (first :: others)) ->
  getattr first "content" = Ok content ->
  getattr content "parts" = Ok (PList parts) ->
  Forall (fun p => readable_part p = true) parts ->
  normalize_tool_calls "gemini" reply
  = Ok (map function_call_record (filter has_function_call parts)).
Proof.
  intros Hc Hf Hp Hparts.
  destruct (collect_gemini_calls parts Hparts) as [found [Hcol Hs]].
  destruct reply; try discriminate Hc.
  unfold normalize_tool_calls. cbn [is_openai_compatible String.eqb orb].
  change (String.eqb "gemini" "anthropic") with false.
  change (String.eqb "gemini" "gemini") with true. cbv iota.
  rewrite Hc. cbn [bind item0]. rewrite Hf. cbn [bind]. rewrite Hp.
  cbn [bind iter]. rewrite Hcol. cbn [bind]. now rewrite Hs.
Qed.

Lemma normalize_gemini_reads_first_candidate_witness :
  normalize_tool_calls "gemini" gemini_reply_with_call
  = Ok (map function_call_record
          (filter has_function_call
             [PObj [("function_call",
                     PObj [("name", PStr "add");
                           ("args", PDict [("a", PInt 2); ("b", PInt 2)])])]])).
Proof.
  apply (normalize_gemini_reads_first_candidate gemini_reply_with_call
           _ _ [] _ eq_refl eq_refl eq_refl).
  repeat constructor.
Defined.

(** A dict payload with neither a [tool_calls] nor a [content] key gives
    the empty list under every tag except [gemini], under which every
    dict payload raises [AttributeError] (a dict has no [candidates]
    attribute). *)
Theorem normalize_dict_without_calls (provider : string)
    (d : list (string * PyVal)) :
  assoc "tool_calls" d = None ->
  assoc "content" d = None ->
  normalize_tool_calls provider (PDict d)
  = if String.eqb provider "gemini"
    then Raise (mkExn AttributeError "candidates")
    else Ok [].
Proof.
  intros Ht Hc. unfold normalize_tool_calls.
  destruct (is_openai_compatible provider) eqn:Eo.
  - assert (String.eqb provider "gemini" = false) as ->.
    { unfold is_openai_compatible in Eo.
      destruct (String.eqb_spec provider "gemini") as [->|]; [discriminate Eo | reflexivity]. }
    cbn. rewrite Ht. reflexivity.
  - destruct (String.eqb_spec provider "anthropic") as [->|Na].
    + cbn. rewrite Hc. reflexivity.
    + destruct (String.eqb provider "gemini"); reflexivity.
Qed.

Lemma normalize_dict_without_calls_witness :
  normalize_tool_calls "groq" (PDict [("role", PStr "assistant")]) = Ok [].
Proof.
  apply (normalize_dict_without_calls "groq" [("role", PStr "assistant")]
           eq_refl eq_refl).
Defined.

(** The tags of [normalize_tool_calls] are compared exactly and the
    Anthropic tag is [anthropic]: with the name under which
    [ProviderFactory] makes a [ClaudeProvider] (any casing of [claude]),
    as given or lowered, the result is the empty list whatever the
    payload holds. *)
Theorem factory_name_for_claude_normalizes_nothing
    (provider_name model : string) (payload : PyVal) :
  ProviderFactory provider_name model = Ok (ClaudeProvider model) ->
  normalize_tool_calls provider_name payload = Ok []
  /\ normalize_tool_calls (lower provider_name) payload = Ok [].
Proof.
  unfold ProviderFactory. intros H.
  destruct (String.eqb (lower provider_name) "openai"); [discriminate H|].
  destruct (String.eqb_spec (lower provider_name) "claude") as [E|N].
  - assert (L : forall tag, String.eqb provider_name tag = true ->
                            lower tag = tag -> lower provider_name = tag).
    { intros tag Ht Hl. apply String.eqb_eq in Ht. now subst. }
    assert (U : forall tag, lower tag = tag -> tag <> "claude" ->
                            String.eqb provider_name tag = false).
    { intros tag Hl Hn. destruct (String.eqb provider_name tag) eqn:Et;
        [|reflexivity]. exfalso. apply Hn. rewrite <- (L tag Et Hl). exact E. }
    split.
    + apply normalize_unknown_tag.
      * unfold is_openai_compatible.
        rewrite !U by (reflexivity || discriminate). reflexivity.
      * apply U; [reflexivity | discriminate].
      * apply U; [reflexivity | discriminate].
    + rewrite E. destruct payload; reflexivity.
  - destruct (String.eqb (lower provider_name) "gemini"); [discriminate H|].
    destruct (String.eqb (lower provider_name) "openrouter"); discriminate H.
Qed.

Lemma factory_name_for_claude_normalizes_nothing_witness :
  normalize_tool_calls "Claude"
    (PDict [("content",
             PList [PDict [("type", PStr "tool_use"); ("name", PStr "add")]])])
  = Ok []
  /\ normalize_tool_calls (lower "Claude")
       (PDict [("content",
                PList [PDict [("type", PStr "tool_use"); ("name", PStr "add")]])])
     = Ok [].
Proof.
  apply (factory_name_for_claude_normalizes_nothing "Claude" "claude-3" _ eq_refl).
Defined.

End NormalizeMoreFacts.

(* ================================================================== *)
(** ** Further properties of the agent loop *)
(* ================================================================== *)

Section AgentMoreFacts.

Import Providers AgentCore Props.

Variable json_loads : string -> Result PyVal.
Variable json_dumps : PyVal -> string.
Variable py_str : PyVal -> string.
Variable query_database : PyVal -> Result PyVal.
Variable search_wikipedia : PyVal -> Result PyVal.
Variable LLM : Type.
Variable llm_chat :
  LLM -> list PyVal -> PyVal -> string -> bool -> Result ChatReturn * LLM.

Local Abbreviation read_tool_call := (AgentCore.read_tool_call json_loads).
Local Abbreviation execute_tool :=
  (AgentCore.execute_tool json_loads json_dumps py_str query_database
     search_wikipedia).
Local Abbreviation tool_result :=
  (Props.tool_result json_loads json_dumps py_str query_database
     search_wikipedia).
Local Abbreviation run_tools :=
  (AgentCore.run_tools json_loads json_dumps py_str query_database
     search_wikipedia LLM).
Local Abbreviation rounds :=
  (AgentCore.rounds json_loads json_dumps py_str query_database
     search_wikipedia LLM llm_chat).
Local Abbreviation process_query :=
  (AgentCore.process_query json_loads json_dumps py_str query_database
     search_wikipedia LLM llm_chat).

Lemma execute_tool_result (tool_call : PyVal) :
  execute_tool tool_call = Ok (tool_result tool_call).
Proof.
  unfold Props.tool_result.
  destruct (execute_tool_returns json_loads json_dumps py_str query_database
              search_wikipedia tool_call) as [text H].
  now rewrite H.
Qed.

Lemma run_tools_messages (self : Agent LLM) (tcs : list PyVal) :
  run_tools self tcs
  = (mkAgent (llm self)
       (messages self ++ map (fun tc => tool_message tc (tool_result tc)) tcs),
     Ok tt).
Proof.
  revert self. induction tcs as [|tc tcs IH]; intros self; cbn [AgentCore.run_tools map].
  - rewrite app_nil_r. destruct self; reflexivity.
  - rewrite execute_tool_result, IH. cbn. now rewrite <- app_assoc.
Qed.

(** The tool loop appends exactly one tool-role message per tool call, in
    the order of the calls, each holding the text returned for its call
    and the call's [id] (or [None]); it leaves the adapter alone and does
    not raise. *)
Theorem run_tools_appends_one_message_per_call
    (self : Agent LLM) (tcs : list PyVal) :
  run_tools self tcs
  = (mkAgent (llm self)
       (messages self ++ map (fun tc => tool_message tc (tool_result tc)) tcs),
     Ok tt)
  /\ map (fun m => get m "tool_call_id" PNone)
         (map (fun tc => tool_message tc (tool_result tc)) tcs)
     = map (fun tc => Ok (getattr_default tc "id" PNone)) tcs
  /\ map (fun m => get m "content" PNone)
         (map (fun tc => tool_message tc (tool_result tc)) tcs)
     = map execute_tool tcs.
Proof.
  split; [apply run_tools_messages|]. split.
  - rewrite map_map. apply map_ext. intros tc. reflexivity.
  - rewrite map_map. apply map_ext. intros tc.
    rewrite execute_tool_result. reflexivity.
Qed.

(** Argument text that [json.loads] rejects gives the record
    [Invalid tool call object] whatever the function name is, the two
    built-in tools included, and no tool is called (the result does not
    depend on them). *)
Theorem execute_tool_rejects_unparsable_arguments
    (tool_call f name : PyVal) (text : string) (e : Exn)
    (other_database other_wikipedia : PyVal -> Result PyVal) :
  getattr tool_call "function" = Ok f ->
  getattr f "name" = Ok name ->
  getattr f "arguments" = Ok (PStr text) ->
  json_loads text = Raise e ->
  execute_tool tool_call
  = Ok (PStr (json_dumps
                (error_record ("Invalid tool call object: " ++ exn_msg e))))
  /\ AgentCore.execute_tool json_loads json_dumps py_str other_database
       other_wikipedia tool_call
     = execute_tool tool_call.
Proof.
  intros Hf Hn Ha Hl.
  assert (R : read_tool_call tool_call = Raise e).
  { unfold AgentCore.read_tool_call. rewrite Hf. cbn [bind]. rewrite Hn.
    cbn [bind]. rewrite Ha. cbn [bind loads]. rewrite Hl. reflexivity. }
  unfold AgentCore.execute_tool. rewrite R. split; reflexivity.
Qed.


(** How a round sequence ends: the messages it adds are tool messages
    followed, when it returns, by exactly one assistant message whose
    content is the returned value; when it raises, no assistant message
    is added. *)
Lemma rounds_shape (n : nat) (self : Agent LLM) (last : PyVal) :
  exists tools,
    Forall (fun m => has_role "tool" m = true) tools
    /\ match snd (rounds n self last) with
       | Ok v =>
           messages (fst (rounds n self last))
           = messages self ++ tools ++ [message "assistant" v]
       | Raise _ =>
           messages (fst (rounds n self last)) = messages self ++ tools
       end.
Proof.
  revert self. induction n as [|n IH]; intros self.
  - exists []. split; [constructor | reflexivity].
  - cbn [AgentCore.rounds].
    destruct (llm_chat (llm self) (messages self) PNone "auto" false)
      as [[[r|g]|e] llm']; cbn [bind response_get].
    + destruct (truthy (resp_tool_calls r)); cbn [negb].
      * destruct (iter (resp_tool_calls r)) as [tcs|e].
        -- rewrite (run_tools_messages (mkAgent llm' (messages self)) tcs).
           destruct (IH (mkAgent llm'
                           (messages self
                            ++ map (fun tc => tool_message tc (tool_result tc)) tcs)))
             as [more [Hm Hs]].
           exists (map (fun tc => tool_message tc (tool_result tc)) tcs ++ more).
           split.
           ++ apply Forall_app. split; [|exact Hm].
              apply Forall_forall. intros m Hin. apply in_map_iff in Hin.
              destruct Hin as [tc [<- _]]. reflexivity.
           ++ cbn [llm messages] in *.
              destruct (snd (rounds n _ last)); rewrite Hs, <- !app_assoc;
                reflexivity.
        -- exists []. split; [constructor|]. cbn. now rewrite app_nil_r.
      * exists []. split; [constructor | reflexivity].
    + exists []. split; [constructor|]. cbn. now rewrite app_nil_r.
    + exists []. split; [constructor|]. cbn. now rewrite app_nil_r.
Qed.

(** A non-streaming turn adds to the history the user message, then only
    tool messages, then, exactly when it returns a value, one assistant
    message whose content is that value; a turn that raises adds no
    assistant message. *)
Theorem turn_adds_user_tools_then_answer
    (self : Agent LLM) (user_input : string) (max_iterations : Z) :
  exists tools,
    Forall (fun m => has_role "tool" m = true) tools
    /\ match snd (process_query self user_input max_iterations false) with
       | Ok (Content v) =>
           messages (fst (process_query self user_input max_iterations false))
           = messages self
             ++ message "user" (PStr user_input) :: tools
             ++ [message "assistant" v]
       | Ok (Handle _) => False
       | Raise _ =>
           messages (fst (process_query self user_input max_iterations false))
           = messages self ++ message "user" (PStr user_input) :: tools
       end.
Proof.
  unfold AgentCore.process_query.
  destruct (rounds_shape (Z.to_nat max_iterations)
              (append self (message "user" (PStr user_input)))
              (PStr EmptyString)) as [tools [Ht Hs]].
  exists tools. split; [exact Ht|].
  destruct (rounds _ _ _) as [self' [v|e]]; cbn in *;
    rewrite Hs, <- app_assoc; reflexivity.
Qed.

(** With a bound that is zero or negative the adapter is not asked at
    all: the turn appends the user message and the partial-answer
    message and returns the marker. *)
Theorem no_round_without_iterations
    (self : Agent LLM) (user_input : string) (max_iterations : Z) :
  (max_iterations <= 0)%Z ->
  process_query self user_input max_iterations false
  = (mkAgent (llm self)
       (messages self
        ++ [message "user" (PStr user_input);
            message "assistant" (PStr partial_answer_marker)]),
     Ok (Content (PStr partial_answer_marker))).
Proof.
  intros H. unfold AgentCore.process_query.
  replace (Z.to_nat max_iterations) with 0%nat by lia.
  cbn -[app]. unfold append. cbn [llm messages].
  rewrite <- app_assoc. reflexivity.
Qed.

Local Abbreviation counted_rounds :=
  (AgentCore.rounds json_loads json_dumps py_str query_database
     search_wikipedia (LLM * nat) (counting llm_chat)).
Local Abbreviation counted_query :=
  (AgentCore.process_query json_loads json_dumps py_str query_database
     search_wikipedia (LLM * nat) (counting llm_chat)).

Lemma counting_unfold (st : LLM * nat) (msgs : list PyVal) (tools : PyVal)
    (tool_choice : string) (stream : bool) :
  counting llm_chat st msgs tools tool_choice stream
  = (fst (llm_chat (fst st) msgs tools tool_choice stream),
     (snd (llm_chat (fst st) msgs tools tool_choice stream), S (snd st))).
Proof. unfold counting. destruct (llm_chat _ _ _ _ _). reflexivity. Qed.

Lemma counted_rounds_bound (n : nat) (self : Agent (LLM * nat)) (last : PyVal) :
  (snd (llm self) <= snd (llm (fst (counted_rounds n self last))) <= snd (llm self) + n)%nat.
Proof.
  revert self. induction n as [|n IH]; intros self.
  - cbn. lia.
  - cbn [AgentCore.rounds]. rewrite counting_unfold.
    destruct (llm_chat (fst (llm self)) (messages self) PNone "auto" false)
      as [[[r|g]|e] llm']; cbn [fst snd bind response_get]; try (cbn; lia).
    destruct (truthy (resp_tool_calls r)); cbn [negb]; [|cbn; lia].
    destruct (iter (resp_tool_calls r)) as [tcs|e]; [|cbn; lia].
    destruct (run_tools_appends json_loads json_dumps py_str query_database
                search_wikipedia (LLM * nat) tcs
                (mkAgent (llm', S (snd (llm self))) (messages self)))
      as [added [Hr _]].
    rewrite Hr.
    specialize (IH (mkAgent (llm', S (snd (llm self))) (messages self ++ added))).
    cbn [llm messages snd] in *. lia.
Qed.

(** The number of [chat] calls of a turn: exactly one in streaming mode,
    and at most [max_iterations] (none when that is not positive)
    otherwise. *)
Theorem chat_calls_are_bounded
    (self : Agent (LLM * nat)) (user_input : string) (max_iterations : Z)
    (stream : bool) :
  exists calls : nat,
    snd (llm (fst (counted_query self user_input max_iterations stream)))
    = (snd (llm self) + calls)%nat
    /\ if stream then calls = 1%nat
       else (calls <= Z.to_nat max_iterations)%nat.
Proof.
  unfold AgentCore.process_query. destruct stream.
  - rewrite counting_unfold.
    destruct (llm_chat _ _ PNone "auto" true) as [gen llm']. cbn.
    exists 1%nat. split; [lia | reflexivity].
  - pose proof (counted_rounds_bound (Z.to_nat max_iterations)
                  (append self (message "user" (PStr user_input)))
                  (PStr EmptyString)) as B.
    destruct (counted_rounds _ _ _) as [self' out]. cbn in *.
    exists (snd (llm self') - snd (llm self))%nat. split; lia.
Qed.

End AgentMoreFacts.

Section AgentMoreScenarios.

Import Providers AgentCore Props Samples.

Lemma execute_tool_rejects_unparsable_arguments_witness :
  AgentCore.execute_tool toy_loads toy_dumps show toy_tool toy_tool
    (PObj [("function", PObj [("name", PStr "query_database");
                              ("arguments", PStr "{oops")])])
  = Ok (PStr "{error: Invalid tool call object: Expecting value}").
Proof.
  apply (proj1 (execute_tool_rejects_unparsable_arguments toy_loads toy_dumps
                  show toy_tool toy_tool
                  (PObj [("function", PObj [("name", PStr "query_database");
                                            ("arguments", PStr "{oops")])])
                  (PObj [("name", PStr "query_database");
                         ("arguments", PStr "{oops")])
                  (PStr "query_database") "{oops"
                  (mkExn ValueError "Expecting value") toy_tool toy_tool
                  eq_refl eq_refl eq_refl eq_refl)).
Defined.


Lemma no_round_without_iterations_witness :
  AgentCore.process_query toy_loads toy_dumps show toy_tool toy_tool nat
    (mock_chat answer_4) fresh_agent "What is 2+2?" 0 false
  = (mkAgent 0
       [message "system" (PStr "You are a helpful assistant.");
        message "user" (PStr "What is 2+2?");
        message "assistant" (PStr partial_answer_marker)],
     Ok (Content (PStr partial_answer_marker))).
Proof.
  apply (no_round_without_iterations toy_loads toy_dumps show toy_tool toy_tool
           nat (mock_chat answer_4) fresh_agent "What is 2+2?" 0).
  lia.
Defined.

End AgentMoreScenarios.

(* ================================================================== *)
(** ** Further properties of the provider adapters *)
(* ================================================================== *)

Section AdapterMoreFacts.

Import Providers Spec Props Samples.

Variable py_str : PyVal -> string.

Lemma yield_all_total (normalise : PyVal -> Result Chunk) (items : list PyVal)
    (at_end : option Exn) :
  (forall x, exists c, normalise x = Ok c /\ chunk_raw c = x) ->
  exists chunks,
    yield_all normalise items at_end = (chunks, at_end)
    /\ map Ok chunks = map normalise items
    /\ map chunk_raw chunks = items.
Proof.
  intros Hn. induction items as [|x items [chunks (Hy & Hm & Hr)]];
    cbn [yield_all map].
  - exists []. repeat split; reflexivity.
  - destruct (Hn x) as [c [Hc Hraw]]. rewrite Hc, Hy.
    exists (c :: chunks). cbn [map]. rewrite Hm, Hr, Hraw. repeat split; reflexivity.
Qed.

(** When the Anthropic streaming request is accepted, [ClaudeProvider.chat]
    with [stream] true yields one chunk per SDK chunk, in order, each
    keeping the SDK chunk as [raw].  If the stream ends normally the
    generator ends with [None] and the non-streaming request is not made;
    if the stream breaks, the chunks delivered so far have been yielded
    and the non-streaming result (a response, or the exception of that
    request) only ends the generator. *)
Theorem claude_stream_yields_every_chunk
    (client : AnthropicClient) (model : string) (messages : list PyVal)
    (tools : PyVal) (tool_choice : string) (elapsed : PyVal) (s : SdkStream) :
  streaming_create client model messages tools tool_choice = Ok s ->
  exists chunks,
    ClaudeProvider_chat py_str client model messages tools tool_choice true elapsed
    = mkGen chunks
        (match stream_error s with
         | None => Ok None
         | Some _ =>
             response <- messages_create client model messages tools tool_choice ;;
             Ok (Some (claude_response py_str response elapsed))
         end)
    /\ map chunk_raw chunks = stream_items s
    /\ map Ok chunks = map claude_chunk (stream_items s).
Proof.
  intros Hs.
  destruct (yield_all_total claude_chunk (stream_items s) (stream_error s))
    as [chunks (Hy & Hm & Hr)].
  { intros x. eexists. split; reflexivity. }
  exists chunks. split; [|split; assumption].
  unfold ClaudeProvider_chat, with_fallback, stream_phase. rewrite Hs, Hy.
  destruct (stream_error s); [|reflexivity].
  destruct (messages_create client model messages tools tool_choice); reflexivity.
Qed.

Lemma last_user_content_skips (skipped rest : list PyVal) :
  Forall (fun m => other_role_dict m = true) skipped ->
  last_user_content (skipped ++ rest) = last_user_content rest.
Proof.
  induction 1 as [|m skipped Hm _ IH]; cbn [app last_user_content].
  - reflexivity.
  - destruct m as [ | | | | | | d | ]; try discriminate Hm. cbn in *.
    destruct (assoc "role" d) as [r|]; cbn in *.
    + destruct (eq_str r "user"); [discriminate Hm | exact IH].
    + exact IH.
Qed.

(** The Gemini adapter sends only the latest user message: when the last
    message with role [user] has a non-empty content, that content is the
    prompt, and [chat] behaves exactly as on the history consisting of
    that message alone, whatever [tools] and [tool_choice] are; earlier
    messages, the system prompt and later tool or assistant messages
    have no effect. *)
Theorem gemini_sends_last_user_message_only
    (sdk : GenAI) (model : string) (before after : list PyVal) (m c : PyVal)
    (tools : PyVal) (tool_choice : string) (stream : bool) (elapsed : PyVal) :
  get m "role" PNone = Ok (PStr "user") ->
  get m "content" PNone = Ok c ->
  truthy c = true ->
  Forall (fun x => other_role_dict x = true) after ->
  gemini_prompt (before ++ m :: after) = Ok c
  /\ GeminiProvider_chat py_str sdk model (before ++ m :: after) tools
       tool_choice stream elapsed
     = GeminiProvider_chat py_str sdk model [m] PNone "auto" stream elapsed.
Proof.
  intros Hrole Hcontent Htruthy Hafter.
  assert (P : forall l, last_user_content (m :: l) = Ok c).
  { intros l. cbn [last_user_content]. rewrite Hrole. cbn [bind eq_str].
    change (String.eqb "user" "user") with true. cbv iota. exact Hcontent. }
  assert (G : gemini_prompt (before ++ m :: after) = Ok c).
  { unfold gemini_prompt.
    rewrite rev_app_distr. cbn [rev]. rewrite <- app_assoc. cbn [app].
    rewrite last_user_content_skips by (apply Forall_rev; exact Hafter).
    rewrite P. cbn [bind]. now rewrite Htruthy. }
  assert (G1 : gemini_prompt [m] = Ok c).
  { unfold gemini_prompt. cbn [rev app]. rewrite P. cbn [bind].
    now rewrite Htruthy. }
  split; [exact G|].
  unfold GeminiProvider_chat. rewrite G, G1. reflexivity.
Qed.

(** When the vendor refuses the streaming request, [chat] with [stream]
    true is, for the Claude, OpenRouter and Gemini adapters, the very
    generator that [chat] with [stream] false is: no chunk, and the
    non-streaming result as the value that ends it. *)
Theorem refused_stream_is_the_non_stream_generator
    (anthropic : AnthropicClient) (openrouter : OpenAIClient) (genai : GenAI)
    (model : string) (messages : list PyVal) (tools : PyVal)
    (tool_choice : string) (elapsed : PyVal) (e1 e2 : Exn)
    (e3 : PyVal -> Exn) :
  streaming_create anthropic model messages tools tool_choice = Raise e1 ->
  completions_stream openrouter model messages tools tool_choice = Raise e2 ->
  (forall prompt, generate_stream genai model prompt = Raise (e3 prompt)) ->
  ClaudeProvider_chat py_str anthropic model messages tools tool_choice true elapsed
  = ClaudeProvider_chat py_str anthropic model messages tools tool_choice false
      elapsed
  /\ OpenRouterProvider_chat openrouter model messages tools tool_choice true
       elapsed
     = OpenRouterProvider_chat openrouter model messages tools tool_choice false
         elapsed
  /\ GeminiProvider_chat py_str genai model messages tools tool_choice true
       elapsed
     = GeminiProvider_chat py_str genai model messages tools tool_choice false
         elapsed
  /\ yielded (ClaudeProvider_chat py_str anthropic model messages tools
                tool_choice true elapsed) = []
  /\ yielded (OpenRouterProvider_chat openrouter model messages tools
                tool_choice true elapsed) = []
  /\ yielded (GeminiProvider_chat py_str genai model messages tools
                tool_choice true elapsed) = [].
Proof.
  intros H1 H2 H3.
  unfold ClaudeProvider_chat, OpenRouterProvider_chat, GeminiProvider_chat.
  rewrite H1, H2.
  destruct (gemini_prompt messages) as [prompt|e]; [rewrite H3|];
    repeat split; reflexivity.
Qed.

End AdapterMoreFacts.

Section AdapterMoreScenarios.

Import Providers Spec Props Samples.

Lemma claude_stream_yields_every_chunk_witness :
  exists chunks,
    ClaudeProvider_chat show
      (mkAnthropic
         (fun _ _ _ _ =>
            Ok (mkStream [PObj [("text", PStr "hel")]; PObj [("text", PStr "lo")]]
                         None))
         (fun _ _ _ _ => Ok claude_reply))
      "claude-3" sample_messages PNone "auto" true (PFloat 0)
    = mkGen chunks (Ok None)
    /\ map chunk_raw chunks = [PObj [("text", PStr "hel")]; PObj [("text", PStr "lo")]]
    /\ map Ok chunks
       = map claude_chunk [PObj [("text", PStr "hel")]; PObj [("text", PStr "lo")]].
Proof.
  apply (claude_stream_yields_every_chunk show
           (mkAnthropic
              (fun _ _ _ _ =>
                 Ok (mkStream [PObj [("text", PStr "hel")];
                               PObj [("text", PStr "lo")]] None))
              (fun _ _ _ _ => Ok claude_reply))
           "claude-3" sample_messages PNone "auto" (PFloat 0)
           (mkStream [PObj [("text", PStr "hel")]; PObj [("text", PStr "lo")]] None)
           eq_refl).
Defined.

Lemma gemini_sends_last_user_message_only_witness :
  gemini_prompt
    ([AgentCore.message "system" (PStr "You are a helpful assistant.")]
     ++ AgentCore.message "user" (PStr "What is 2+2?")
     :: [AgentCore.tool_message add_call unknown_tool_text])
  = Ok (PStr "What is 2+2?")
  /\ GeminiProvider_chat show sample_genai "gemini-pro"
       ([AgentCore.message "system" (PStr "You are a helpful assistant.")]
        ++ AgentCore.message "user" (PStr "What is 2+2?")
        :: [AgentCore.tool_message add_call unknown_tool_text])
       (PList []) "required" false (PFloat 0)
     = GeminiProvider_chat show sample_genai "gemini-pro"
         [AgentCore.message "user" (PStr "What is 2+2?")] PNone "auto" false
         (PFloat 0).
Proof.
  apply (gemini_sends_last_user_message_only show sample_genai "gemini-pro"
           [AgentCore.message "system" (PStr "You are a helpful assistant.")]
           [AgentCore.tool_message add_call unknown_tool_text]
           (AgentCore.message "user" (PStr "What is 2+2?"))
           (PStr "What is 2+2?") (PList []) "required" false (PFloat 0)
           eq_refl eq_refl eq_refl).
  repeat constructor.
Defined.

Lemma refused_stream_is_the_non_stream_generator_witness :
  ClaudeProvider_chat show sample_anthropic "m" sample_messages PNone "auto"
    true (PFloat 0)
  = ClaudeProvider_chat show sample_anthropic "m" sample_messages PNone "auto"
      false (PFloat 0)
  /\ OpenRouterProvider_chat sample_openrouter "m" sample_messages PNone "auto"
       true (PFloat 0)
     = OpenRouterProvider_chat sample_openrouter "m" sample_messages PNone
         "auto" false (PFloat 0)
  /\ GeminiProvider_chat show sample_genai "m" sample_messages PNone "auto"
       true (PFloat 0)
     = GeminiProvider_chat show sample_genai "m" sample_messages PNone "auto"
         false (PFloat 0)
  /\ yielded (ClaudeProvider_chat show sample_anthropic "m" sample_messages
                PNone "auto" true (PFloat 0)) = []
  /\ yielded (OpenRouterProvider_chat sample_openrouter "m" sample_messages
                PNone "auto" true (PFloat 0)) = []
  /\ yielded (GeminiProvider_chat show sample_genai "m" sample_messages PNone
                "auto" true (PFloat 0)) = [].
Proof.
  apply (refused_stream_is_the_non_stream_generator show sample_anthropic
           sample_openrouter sample_genai "m" sample_messages PNone "auto"
           (PFloat 0) (mkExn AttributeError "streaming")
           (mkExn SdkError "streaming is not supported")
           (fun _ => mkExn SdkError "streaming is not supported")
           eq_refl eq_refl (fun _ => eq_refl)).
Defined.

End AdapterMoreScenarios.

(* ================================================================== *)
(** ** Properties of the helpers of [tools.py] *)
(* ================================================================== *)

Section ToolsFacts.

Import Spec Props.

Variable fs : string -> Tools.FsEntry.
Variable glob : string -> list string.
Variable strip : string -> string.
Variable run_shell : string -> string -> string.

Local Abbreviation search_in_file := (Tools.search_in_file fs strip).
Local Abbreviation search_files := (Tools.search_files fs strip).
Local Abbreviation search_in_project := (Tools.search_in_project fs glob strip).
Local Abbreviation format_code := (Tools.format_code run_shell).
Local Abbreviation results_ok := (Props.results_ok fs strip).

Lemma scan_lines_filter (query : string) (lines : list string) (i : nat) :
  Tools.scan_lines strip query i lines
  = map (report strip)
        (filter (fun entry => Tools.contains query (snd entry))
                (combine (seq i (length lines)) lines)).
Proof.
  revert i. induction lines as [|line lines IH]; intros i; cbn.
  - reflexivity.
  - rewrite IH. destruct (Tools.contains query line); reflexivity.
Qed.

Lemma contains_empty (line : string) : Tools.contains EmptyString line = true.
Proof. destruct line; reflexivity. Qed.

Lemma filter_all {A : Type} (f : A -> bool) (l : list A) :
  (forall x, f x = true) -> filter f l = l.
Proof.
  intros H. induction l as [|x l IH]; cbn; [reflexivity|]. now rewrite H, IH.
Qed.

(** [search_in_file] returns the empty list for a path that does not
    exist, raises what opening or decoding raises, and otherwise reports,
    in file order, exactly the lines that contain the query, each as its
    line number counted from 1, a colon, and the stripped line; with the
    empty query every line is reported. *)
Theorem search_in_file_reports_matching_lines (path query : string) :
  search_in_file path query
  = match fs path with
    | Tools.Missing => Ok []
    | Tools.Unreadable e => Raise e
    | Tools.File lines =>
        Ok (map (report strip)
              (filter (fun entry => Tools.contains query (snd entry))
                      (numbered lines)))
    end
  /\ search_in_file path EmptyString
     = match fs path with
       | Tools.Missing => Ok []
       | Tools.Unreadable e => Raise e
       | Tools.File lines => Ok (map (report strip) (numbered lines))
       end.
Proof.
  unfold Tools.search_in_file, numbered.
  destruct (fs path) as [ | e | lines]; try (split; reflexivity).
  rewrite !scan_lines_filter. split; [reflexivity|].
  rewrite filter_all; [reflexivity|]. intros [i line]. apply contains_empty.
Qed.

Lemma assoc_some_in {V : Type} (k : string) (v : V) (d : list (string * V)) :
  assoc k d = Some v -> In k (keys d).
Proof.
  intros H. destruct (in_dec string_dec k (keys d)) as [I|N]; [exact I|].
  apply assoc_none_not_in in N. congruence.
Qed.

Lemma results_ok_step (query : string) (all : list string)
    (results : list (string * list string)) (file : string)
    (matches : list string) :
  results_ok query all results ->
  In file all ->
  search_in_file file query = Ok matches ->
  results_ok query all
    (match matches with [] => results | _ => dict_set file matches results end).
Proof.
  intros (Hn & Hk & Hv) Hin Hs.
  destruct matches as [|m ms]; [exact (conj Hn (conj Hk Hv))|].
  split; [|split].
  - now apply NoDup_keys_dict_set.
  - intros f Hf.
    destruct (keys_dict_set_cases file (m :: ms) results) as [[_ E]|[_ E]];
      rewrite E in Hf; [now apply Hk|].
    apply in_app_or in Hf. destruct Hf as [Hf|[<-|[]]]; [now apply Hk | exact Hin].
  - intros f v Hf. destruct (string_dec file f) as [<-|N].
    + rewrite assoc_dict_set_same in Hf. injection Hf as <-.
      split; [discriminate | exact Hs].
    + rewrite assoc_dict_set_other in Hf by exact N. now apply Hv.
Qed.

Lemma search_files_ok (query : string) (all files : list string)
    (results out : list (string * list string)) :
  search_files query files results = Ok out ->
  incl files all ->
  results_ok query all results ->
  results_ok query all out
  /\ (forall f m, assoc f results = Some m -> assoc f out = Some m)
  /\ (forall f m, In f files -> search_in_file f query = Ok m -> m <> [] ->
                  assoc f out = Some m).
Proof.
  revert results. induction files as [|file files IH]; intros results Hout Hincl Hok.
  - cbn in Hout. injection Hout as <-.
    split; [exact Hok|]. split; [auto|]. intros f m [].
  - cbn [Tools.search_files] in Hout.
    destruct (search_in_file file query) as [matches|e] eqn:Hs;
      [|discriminate Hout]. cbn [bind] in Hout.
    assert (Hin : In file all) by (apply Hincl; now left).
    assert (Hincl' : incl files all) by (intros x Hx; apply Hincl; now right).
    pose proof (results_ok_step query all results file matches Hok Hin Hs) as Hok'.
    destruct (IH _ Hout Hincl' Hok') as (Ho & Hkeep & Hfound).
    assert (Hkeep0 : forall f m, assoc f results = Some m ->
              assoc f (match matches with
                       | [] => results
                       | _ => dict_set file matches results
                       end) = Some m).
    { intros f m Hf. destruct matches as [|x xs]; [exact Hf|].
      destruct (string_dec file f) as [<-|N].
      - rewrite assoc_dict_set_same.
        destruct Hok as (_ & _ & Hv). destruct (Hv _ _ Hf) as [_ Hs'].
        congruence.
      - now rewrite assoc_dict_set_other by exact N. }
    split; [exact Ho|]. split.
    + intros f m Hf. apply Hkeep. now apply Hkeep0.
    + intros f m [<-|Hf] Hm Hne.
      * apply Hkeep. rewrite Hs in Hm. injection Hm as <-.
        destruct matches as [|x xs]; [congruence|]. apply assoc_dict_set_same.
      * now apply Hfound.
Qed.

(** When [search_in_project] returns, its dict has one entry per globbed
    file that has at least one matching line and no other entry: keys are
    distinct, and a file is mapped to a list exactly when it is among the
    globbed files and that list is its non-empty result of
    [search_in_file]. *)
Theorem search_in_project_keeps_files_with_matches
    (query pattern : string) (results : list (string * list string)) :
  search_in_project query pattern = Ok results ->
  NoDup (keys results)
  /\ (forall file matches,
        assoc file results = Some matches
        <-> (In file (glob pattern) /\ matches <> []
             /\ search_in_file file query = Ok matches)).
Proof.
  unfold Tools.search_in_project. intros H.
  destruct (search_files_ok query (glob pattern) (glob pattern) [] results H)
    as ((Hn & Hk & Hv) & _ & Hfound).
  - apply incl_refl.
  - repeat split; try constructor; intros; try contradiction; discriminate.
  - split; [exact Hn|]. intros file matches. split.
    + intros Hf. destruct (Hv _ _ Hf) as [Hne Hs].
      repeat split; try assumption. apply Hk. now apply assoc_some_in in Hf.
    + intros (Hin & Hne & Hs). now apply Hfound.
Qed.

Lemma search_files_outcome (query : string) (files : list string)
    (results : list (string * list string)) :
  match first_unreadable fs files with
  | Some e => search_files query files results = Raise e
  | None => exists out, search_files query files results = Ok out
  end.
Proof.
  revert results. induction files as [|file files IH]; intros results;
    cbn [first_unreadable Tools.search_files].
  - eexists; reflexivity.
  - unfold Tools.search_in_file.
    destruct (fs file) as [ | e | lines]; cbn [bind]; [apply IH | reflexivity | apply IH].
Qed.

(** [search_in_project] fails exactly when some globbed path exists but
    cannot be read (a directory matching the pattern, a file that is not
    UTF-8): it then raises the error of the first such path and returns
    no partial result; otherwise it returns a dict. *)
Theorem search_in_project_outcome (query pattern : string) :
  match first_unreadable fs (glob pattern) with
  | Some e => search_in_project query pattern = Raise e
  | None => exists results, search_in_project query pattern = Ok results
  end.
Proof. apply search_files_outcome. Qed.

(** [format_code] picks the formatter without regard to the case of
    [language]: any casing of [python] runs black on the code, any casing
    of [javascript], [typescript], [js] or [ts] runs prettier, and for
    every other language the code is returned unchanged and nothing is
    run. *)
Theorem format_code_by_language (language code : string) :
  format_code language code
  = if is_casing_of language "python" then run_shell "black -q -" code
    else if existsb (is_casing_of language)
                    ["javascript"; "typescript"; "js"; "ts"]
         then run_shell "npx prettier --stdin-filepath temp.js" code
         else code.
Proof.
  unfold Tools.format_code. cbn [existsb].
  rewrite !casing_is_lower by reflexivity. reflexivity.
Qed.

End ToolsFacts.

Section ToolsScenarios.

Import Props ToolSamples.

Lemma search_in_project_keeps_files_with_matches_witness :
  NoDup (keys [("a.py", ["1: import os"; "3: import re"])])
  /\ (forall file matches,
        assoc file [("a.py", ["1: import os"; "3: import re"])] = Some matches
        <-> (In file ["a.py"; "gone.py"] /\ matches <> []
             /\ Tools.search_in_file sample_fs (fun line => line) file "import"
                = Ok matches)).
Proof.
  apply (search_in_project_keeps_files_with_matches sample_fs
           (fun _ => ["a.py"; "gone.py"]) (fun line => line) "import" "*.py"
           [("a.py", ["1: import os"; "3: import re"])] eq_refl).
Defined.

Example search_in_project_stops_at_a_directory :
  Tools.search_in_project sample_fs (fun _ => ["a.py"; "pkg.py"])
    (fun line => line) "import" "*.py"
  = Raise (mkExn SdkError "Is a directory: pkg.py").
Proof. reflexivity. Qed.

End ToolsScenarios.

Section OpenAIAdapterFacts.

Import Providers.

(** [OpenAIProvider.chat] has no fallback: with [stream] true the
    generator ends with [None] or with an exception, never with a
    response, and what it does is the same whatever the non-streaming
    request would have returned. *)
Theorem openai_stream_has_no_fallback
    (stream_request : string -> list PyVal -> PyVal -> string -> Result SdkStream)
    (request request' : string -> list PyVal -> PyVal -> string -> Result PyVal)
    (model : string) (messages : list PyVal) (tools : PyVal)
    (tool_choice : string) (elapsed : PyVal) :
  (finished (OpenAIProvider_chat (mkOpenAI stream_request request) model
               messages tools tool_choice true elapsed) = Ok None
   \/ exists e,
        finished (OpenAIProvider_chat (mkOpenAI stream_request request) model
                    messages tools tool_choice true elapsed) = Raise e)
  /\ OpenAIProvider_chat (mkOpenAI stream_request request) model messages tools
       tool_choice true elapsed
     = OpenAIProvider_chat (mkOpenAI stream_request request') model messages
         tools tool_choice true elapsed.
Proof.
  unfold OpenAIProvider_chat. cbn [completions_stream].
  destruct (stream_phase _ openai_chunk) as [cs [e|]]; cbn.
  - split; [right; eexists; reflexivity | reflexivity].
  - split; [left; reflexivity | reflexivity].
Qed.

End OpenAIAdapterFacts.
